(** * bizsync Linux runner: [linux/runner/my_application.cc]

    A shallow embedding of the GTK application shell of bizsync and the
    properties its specification states about it.

    The C++ source talks to three outside parties: the process
    environment ([getenv]/[setenv]), the GLib allocator ([g_strdupv],
    [g_strfreev]) and the GTK / Flutter toolkits.  The embedding keeps the
    environment and the allocator as explicit state, records every call
    into the toolkits in a trace, and takes what the toolkits answer (the
    default display, the window-manager name, whether registration
    succeeds) from a [Platform] record.  The handlers GLib runs before
    [g_application_register] and [g_application_activate] return are run
    in place, on the platforms an [Emissions] record gives. *)

From Stdlib Require Import ZArith Ascii.
From stdpp Require Import gmap strings list fin_maps.

Local Open Scope Z_scope.

(** ** C strings *)

Module CString.

(** [strcmp]: the sign of the first differing byte, as a [comparison]. *)
Definition strcmp (s1 s2 : string) : comparison := String.compare s1 s2.

(** [g_strcmp0]: [strcmp] that tolerates [NULL]; [NULL] sorts first. *)
Definition g_strcmp0 (s1 s2 : option string) : comparison :=
  match s1, s2 with
  | None, None => Eq
  | None, Some _ => Lt
  | Some _, None => Gt
  | Some a, Some b => strcmp a b
  end.

(** Does [haystack] start with the bytes of [needle]? *)
Fixpoint starts_with (needle haystack : string) : bool :=
  match needle, haystack with
  | EmptyString, _ => true
  | String _ _, EmptyString => false
  | String c n, String d h => if Ascii.eqb c d then starts_with n h else false
  end.

(** [strstr]: the suffix of [haystack] at the first occurrence of
    [needle], or [None] for the null pointer. *)
Fixpoint strstr (haystack needle : string) : option string :=
  if starts_with needle haystack then Some haystack
  else match haystack with
       | EmptyString => None
       | String _ h => strstr h needle
       end.

(** The specification's notion: [needle] occurs somewhere in [haystack],
    byte for byte. *)
Definition contains (haystack needle : string) : Prop :=
  ∃ before after, haystack = before +:+ needle +:+ after.

(** The line feed that ends a printed line. *)
Definition LF : string := String (ascii_of_nat 10) EmptyString.

End CString.

(** ** What the toolkits answer *)

(** The dynamic type of a [GdkDisplay] object, as the [GDK_IS_*_DISPLAY]
    macros see it. *)
Inductive GdkDisplay := WaylandDisplay | X11Display | OtherDisplay.

(** The dynamic type of a [GdkScreen]; an X11 screen knows the name of its
    window manager ([gdk_x11_screen_get_window_manager_name], which may be
    a null pointer). *)
Inductive GdkScreen :=
| X11Screen (wm_name : option string)
| OtherScreen.

(** Outcome of [g_application_register]: [TRUE], or [FALSE] with the
    message of the [GError] it filled in. *)
Inductive RegisterResult :=
| Registered
| RegisterFailed (message : string).

(** The windowing back ends GDK was built with ([gdkconfig.h]). *)
Record BuildConfig := {
  GDK_WINDOWING_X11 : bool;
  GDK_WINDOWING_WAYLAND : bool;
}.

Record Platform := {
  build : BuildConfig;
  gdk_display_get_default : option GdkDisplay;   (* None: null pointer *)
  gtk_window_get_screen : GdkScreen;
  gdk_screen_get_system_visual : bool;           (* false: null pointer *)
  g_application_register : RegisterResult;
}.

Definition GDK_IS_WAYLAND_DISPLAY (display : option GdkDisplay) : bool :=
  match display with Some WaylandDisplay => true | _ => false end.

Definition GDK_IS_X11_DISPLAY (display : option GdkDisplay) : bool :=
  match display with Some X11Display => true | _ => false end.

Definition GDK_IS_X11_SCREEN (screen : GdkScreen) : bool :=
  match screen with X11Screen _ => true | OtherScreen => false end.

Definition gdk_x11_screen_get_window_manager_name (screen : GdkScreen)
  : option string :=
  match screen with X11Screen wm_name => wm_name | OtherScreen => None end.

(** ** Calls into the toolkits *)

Inductive Widget := window | header_bar | view.

Inductive GtkCall :=
| gtk_application_window_new
| gtk_window_set_resizable (setting : bool)
| gtk_window_set_decorated (setting : bool)
| gtk_window_set_type_hint_NORMAL
| gtk_widget_set_app_paintable (w : Widget) (setting : bool)
| gtk_header_bar_new
| gtk_widget_show (w : Widget)
| gtk_header_bar_set_title (title : string)
| gtk_header_bar_set_show_close_button (setting : bool)
| gtk_window_set_titlebar (w : Widget)
| gtk_window_set_title (title : string)
| gtk_window_set_default_size (width height : Z)
| gtk_widget_set_size_request (w : Widget) (width height : Z)
| fl_dart_project_new
| fl_dart_project_set_dart_entrypoint_arguments (argv : option (list string))
| fl_view_new
| gtk_widget_set_can_focus (w : Widget) (setting : bool)
| gtk_widget_set_receives_default (w : Widget) (setting : bool)
| gtk_widget_set_visual (w : Widget)
| gtk_container_add (container child : Widget)
| fl_register_plugins
| gtk_widget_grab_focus (w : Widget).

(** The locals declared with [g_autoptr].  Leaving their scope with a
    non-null value releases it: [g_object_unref] for the project of
    [my_application_activate], [g_error_free] for the error of
    [my_application_local_command_line]. *)
Inductive AutoPtr := project | error.

(** Everything the runner does that the outside can observe, in the order
    it does it. *)
Inductive Event :=
| Setenv (name value : string) (overwrite : Z)
| GPrint (text : string)
| GWarning (text : string)
| Strdupv (p : nat)                 (* a string vector allocated at [p] *)
| Strfreev (p : nat)                (* the string vector at [p] released *)
| ApplicationRegister
| ApplicationActivate
| ParentStartup                     (* GApplicationClass(parent)->startup *)
| ParentShutdown
| ParentDispose
| Gtk (call : GtkCall)
| AutoptrCleanup (local : AutoPtr).

Global Instance Widget_eq_dec : EqDecision Widget.
Proof. solve_decision. Defined.

Global Instance GtkCall_eq_dec : EqDecision GtkCall.
Proof. solve_decision. Defined.

Global Instance AutoPtr_eq_dec : EqDecision AutoPtr.
Proof. solve_decision. Defined.

Global Instance Event_eq_dec : EqDecision Event.
Proof. solve_decision. Defined.

(** ** Program state *)

(** [struct _MyApplication]; a pointer is an address, [None] the null
    pointer. *)
Record MyApplication := {
  dart_entrypoint_arguments : option nat;
}.

Record State := {
  environ : gmap string string;       (* the process environment *)
  heap : gmap nat (list string);      (* live string vectors *)
  self : MyApplication;
}.

(** A computation reads and updates the state, reports the events it
    caused, and has no result where C leaves the behaviour undefined. *)
Definition M (A : Type) : Type := State → option (A * State * list Event).

Definition ret {A} (a : A) : M A := λ st, Some (a, st, []).

Global Instance M_ret : MRet M := @ret.

Global Instance M_bind : MBind M := λ A B k m st,
  match m st with
  | Some (a, st1, ev1) =>
      match k a st1 with
      | Some (b, st2, ev2) => Some (b, st2, ev1 ++ ev2)
      | None => None
      end
  | None => None
  end.

Definition undefined {A} : M A := λ _, None.

Definition emit (e : Event) : M unit := λ st, Some (tt, st, [e]).

Definition gtk (call : GtkCall) : M unit := emit (Gtk call).

Definition g_print (text : string) : M unit := emit (GPrint text).

Definition g_warning (text : string) : M unit := emit (GWarning text).

Definition getenv (name : string) : M (option string) :=
  λ st, Some (environ st !! name, st, []).

(** [setenv]: with [overwrite] zero an existing value is kept. *)
Definition setenv (name value : string) (overwrite : Z) : M Z := λ st,
  let env :=
    match environ st !! name with
    | Some _ => if overwrite =? 0 then environ st else <[name:=value]> (environ st)
    | None => <[name:=value]> (environ st)
    end in
  Some (0, {| environ := env; heap := heap st; self := self st |},
        [Setenv name value overwrite]).

(** *** String vectors *)

(** The cells of a null-terminated [char**] holding [argv]. *)
Definition strv (argv : list string) : list (option string) :=
  (Some <$> argv) ++ [None].

(** Reading a vector from a pointer up to its terminator; running off the
    end of the array is undefined. *)
Fixpoint g_strv_read (cells : list (option string)) : option (list string) :=
  match cells with
  | [] => None
  | None :: _ => Some []
  | Some s :: rest => cons s <$> g_strv_read rest
  end.

(** [g_strdupv] of a non-null pointer whose remaining cells are [cells]. *)
Definition g_strdupv (cells : list (option string)) : M nat := λ st,
  match g_strv_read cells with
  | Some strings =>
      let p := fresh (dom (heap st)) in
      Some (p, {| environ := environ st;
                  heap := <[p:=strings]> (heap st);
                  self := self st |},
            [Strdupv p])
  | None => None
  end.

(** [g_strfreev] of a non-null pointer; freeing what is not live is
    undefined. *)
Definition g_strfreev (p : nat) : M unit := λ st,
  match heap st !! p with
  | Some _ =>
      Some (tt, {| environ := environ st;
                   heap := delete p (heap st);
                   self := self st |},
            [Strfreev p])
  | None => None
  end.

(** Reading through a possibly null vector pointer. *)
Definition strv_deref (p : option nat) : M (option (list string)) := λ st,
  match p with
  | None => Some (None, st, [])
  | Some a =>
      match heap st !! a with
      | Some strings => Some (Some strings, st, [])
      | None => None
      end
  end.

Definition get_dart_entrypoint_arguments : M (option nat) :=
  λ st, Some (dart_entrypoint_arguments (self st), st, []).

Definition set_dart_entrypoint_arguments (p : option nat) : M unit :=
  λ st, Some (tt, {| environ := environ st; heap := heap st;
                     self := {| dart_entrypoint_arguments := p |} |}, []).

(** [g_clear_pointer (&self->dart_entrypoint_arguments, destroy)]: the
    field is set to null first, then the old value, if any, destroyed. *)
Definition g_clear_pointer_dart_entrypoint_arguments
    (destroy : nat → M unit) : M unit :=
  p ← get_dart_entrypoint_arguments;
  set_dart_entrypoint_arguments None;;
  match p with
  | Some a => destroy a
  | None => ret tt
  end.

(** ** The runner *)

Definition is_mesa_software_rendering : M bool :=
  renderer ← getenv "LIBGL_ALWAYS_SOFTWARE";
  if match renderer with
     | Some r => bool_decide (CString.strcmp r "1" = Eq)
     | None => false
     end
  then ret true
  else
    gl_renderer ← getenv "GL_RENDERER";
    match gl_renderer with
    | Some r =>
        if bool_decide (CString.strstr r "llvmpipe" ≠ None)
           || bool_decide (CString.strstr r "softpipe" ≠ None)
           || bool_decide (CString.strstr r "swrast" ≠ None)
        then ret true
        else ret false
    | None => ret false
    end.

Definition configure_mesa_rendering (pf : Platform) : M unit :=
  software ← is_mesa_software_rendering;
  if (software : bool) then
    setenv "vblank_mode" "0" 1;;
    setenv "LIBGL_DRI3_DISABLE" "1" 1;;
    setenv "CLUTTER_PAINT" "disable-clipped-redraws:disable-culling" 1;;
    setenv "MESA_GLSL_CACHE_DISABLE" "1" 1;;
    setenv "MESA_SHADER_CACHE_DISABLE" "1" 1;;
    setenv "mesa_glthread" "false" 1;;
    setenv "MESA_NO_MEMOBJ_CACHE" "1" 1;;
    setenv "MESA_DEBUG" "flush" 1;;
    setenv "force_s3tc_enable" "false" 1;;
    setenv "MESA_EXTENSION_OVERRIDE"
           "-GL_ARB_buffer_storage -GL_EXT_buffer_storage" 1;;
    setenv "LP_NUM_THREADS" "1" 1;;
    setenv "MESA_FBO_CACHE" "0" 1;;
    gdk_backend ← getenv "GDK_BACKEND";
    (if match gdk_backend with
        | None => true
        | Some b => bool_decide (CString.strcmp b "wayland" = Eq)
        end
     then
       let display := gdk_display_get_default pf in
       if bool_decide (display ≠ None) then
         if GDK_WINDOWING_X11 (build pf) then
           if GDK_IS_X11_DISPLAY display
           then setenv "GDK_BACKEND" "x11" 1;; ret tt
           else ret tt
         else ret tt
       else ret tt
     else ret tt);;
    g_print ("BizSync: Mesa software rendering detected, applying comprehensive workarounds" +:+ CString.LF);;
    g_print ("  - Disabled vsync (vblank_mode=0)" +:+ CString.LF);;
    g_print ("  - Disabled DRI3 (LIBGL_DRI3_DISABLE=1)" +:+ CString.LF);;
    g_print ("  - Disabled GLSL cache" +:+ CString.LF);;
    g_print ("  - Single-threaded rendering (LP_NUM_THREADS=1)" +:+ CString.LF);;
    g_print ("  - Synchronous flushing enabled" +:+ CString.LF)
  else ret tt.

(** The two locals of [my_application_activate] that depend only on what
    the toolkits answer. *)
Definition activate_is_wayland (pf : Platform) : bool :=
  let display := gdk_display_get_default pf in
  let is_wayland := false in
  if GDK_WINDOWING_WAYLAND (build pf) && GDK_IS_WAYLAND_DISPLAY display
  then true
  else is_wayland.

Definition activate_use_header_bar (pf : Platform) : bool :=
  let display := gdk_display_get_default pf in
  let use_header_bar := true in
  let use_header_bar :=
    if GDK_WINDOWING_WAYLAND (build pf) && GDK_IS_WAYLAND_DISPLAY display
    then true
    else use_header_bar in
  let use_header_bar :=
    if GDK_WINDOWING_X11 (build pf) && GDK_IS_X11_DISPLAY display then
      let screen := gtk_window_get_screen pf in
      if GDK_IS_X11_SCREEN screen then
        let wm_name := gdk_x11_screen_get_window_manager_name screen in
        if bool_decide (CString.g_strcmp0 wm_name (Some "GNOME Shell") ≠ Eq)
        then false
        else use_header_bar
      else use_header_bar
    else use_header_bar in
  use_header_bar.

Definition my_application_activate (pf : Platform) : M unit :=
  gtk gtk_application_window_new;;
  gtk (gtk_window_set_resizable true);;
  gtk (gtk_window_set_decorated true);;
  let is_wayland := activate_is_wayland pf in
  let use_header_bar := activate_use_header_bar pf in
  (if is_wayland then
     gtk gtk_window_set_type_hint_NORMAL;;
     gtk (gtk_widget_set_app_paintable window true)
   else ret tt);;
  (if use_header_bar then
     gtk gtk_header_bar_new;;
     gtk (gtk_widget_show header_bar);;
     gtk (gtk_header_bar_set_title "bizsync");;
     gtk (gtk_header_bar_set_show_close_button true);;
     gtk (gtk_window_set_titlebar header_bar)
   else
     gtk (gtk_window_set_title "bizsync"));;
  gtk (gtk_window_set_default_size 1280 720);;
  (if is_wayland then gtk (gtk_widget_set_size_request window 800 600)
   else ret tt);;
  gtk (gtk_widget_show window);;
  gtk fl_dart_project_new;;
  p ← get_dart_entrypoint_arguments;
  argv ← strv_deref p;
  gtk (fl_dart_project_set_dart_entrypoint_arguments argv);;
  gtk fl_view_new;;
  (if is_wayland then
     gtk (gtk_widget_set_can_focus view true);;
     gtk (gtk_widget_set_receives_default view true);;
     gtk (gtk_widget_set_app_paintable view true)
   else ret tt);;
  software ← is_mesa_software_rendering;
  (if (software : bool) then
     gtk (gtk_widget_set_app_paintable view false);;
     if gdk_screen_get_system_visual pf then
       gtk (gtk_widget_set_visual window);;
       gtk (gtk_widget_set_visual view)
     else ret tt
   else ret tt);;
  gtk (gtk_widget_show view);;
  gtk (gtk_container_add window view);;
  gtk fl_register_plugins;;
  gtk (gtk_widget_grab_focus view);;
  emit (AutoptrCleanup project).

Definition my_application_startup (pf : Platform) : M unit :=
  configure_mesa_rendering pf;;
  emit ParentStartup.

(** *** What GLib runs inside the command-line handler *)

(** [my_application_new] creates the instance [G_APPLICATION_NON_UNIQUE],
    so it is never a remote instance.  [g_application_register] then,
    the first time it succeeds, emits [startup] before it returns, and
    [g_application_activate] emits [activate]; [my_application_class_init]
    made [my_application_startup] and [my_application_activate] the
    handlers.  Each runs on what the toolkits answer at that moment. *)
Record Emissions := {
  startup_emitted : option Platform;   (* None: registered before *)
  activate_emitted : Platform;
}.

(** The part of a successful [g_application_register] that runs code of
    this class. *)
Definition startup_signal (inner : Emissions) : M unit :=
  match startup_emitted inner with
  | Some pf => my_application_startup pf
  | None => ret tt
  end.

Definition g_application_activate (inner : Emissions) : M unit :=
  emit ApplicationActivate;;
  my_application_activate (activate_emitted inner).

(** [my_application_local_command_line]: the result pairs the returned
    [gboolean] with the value stored through [exit_status].  [arguments]
    is the content of the null-terminated vector [*arguments].  The
    [GError] is set, and so released on return, on the failure path
    only. *)
Definition my_application_local_command_line
    (pf : Platform) (inner : Emissions) (arguments : list string)
  : M (bool * Z) :=
  p ← g_strdupv (drop 1 (strv arguments));
  set_dart_entrypoint_arguments (Some p);;
  emit ApplicationRegister;;
  match g_application_register pf with
  | RegisterFailed message =>
      g_warning ("Failed to register: " +:+ message);;
      emit (AutoptrCleanup error);;
      ret (true, 1)
  | Registered =>
      startup_signal inner;;
      g_application_activate inner;;
      ret (true, 0)
  end.

Definition my_application_shutdown : M unit :=
  emit ParentShutdown.

Definition my_application_dispose : M unit :=
  g_clear_pointer_dart_entrypoint_arguments g_strfreev;;
  emit ParentDispose.

(** *** The class and its instances *)

(** The virtual functions [my_application_class_init] overrides. *)
Inductive Signal :=
| activate
| local_command_line (arguments : list string) (inner : Emissions)
| startup
| shutdown
| dispose.

(** The handler installed for each of them. *)
Definition my_application_class_init (pf : Platform) (sig : Signal) : M unit :=
  match sig with
  | activate => my_application_activate pf
  | local_command_line arguments inner =>
      _ ← my_application_local_command_line pf inner arguments; ret tt
  | startup => my_application_startup pf
  | shutdown => my_application_shutdown
  | dispose => my_application_dispose
  end.

(** The instance as [g_object_new] hands it out: zero-filled, and
    [my_application_init] leaves it so. *)
Definition zeroed_instance : MyApplication :=
  {| dart_entrypoint_arguments := None |}.

(** The states an application can be in: a new instance, then any
    sequence of handler runs, each on whatever the toolkits answer at that
    moment. *)
Inductive reachable : State → Prop :=
| reachable_new env hp :
    reachable {| environ := env; heap := hp; self := zeroed_instance |}
| reachable_signal st pf sig st' evs :
    reachable st →
    my_application_class_init pf sig st = Some (tt, st', evs) →
    reachable st'.

(** *** Reading a trace *)

(** The [setenv] calls of a trace, in order. *)
Definition setenv_calls (evs : list Event) : list (string * string * Z) :=
  omap (λ e, match e with
             | Setenv name value overwrite => Some (name, value, overwrite)
             | _ => None
             end) evs.

(** The addresses released in a trace, in order. *)
Definition freed (evs : list Event) : list nat :=
  omap (λ e, match e with Strfreev p => Some p | _ => None end) evs.

(** How many times [g_application_activate] was called. *)
Definition activations (evs : list Event) : nat :=
  length (filter (λ e, e = ApplicationActivate) evs).

(** The toolkit calls of a trace that decide what the window shows as its
    title: those that build and install a header bar, and the one that
    sets a plain title. *)
Definition is_title_call (call : GtkCall) : bool :=
  match call with
  | gtk_header_bar_new
  | gtk_widget_show header_bar
  | gtk_header_bar_set_title _
  | gtk_header_bar_set_show_close_button _
  | gtk_window_set_titlebar _
  | gtk_window_set_title _ => true
  | _ => false
  end.

Definition title_calls (evs : list Event) : list GtkCall :=
  omap (λ e, match e with
             | Gtk call => if is_title_call call then Some call else None
             | _ => None
             end) evs.

(** A trace free of what only the command-line handler and disposal do
    themselves: it allocates and frees no vector, registers and activates
    nothing, and warns of nothing. *)
Definition quiet (evs : list Event) : Prop :=
  Forall (λ e, match e with
               | Strdupv _ | Strfreev _ | ApplicationRegister
               | ApplicationActivate | GWarning _ => False
               | _ => True
               end) evs.

(** The stored argument pointer is null or points to a live vector. *)
Definition arguments_valid (st : State) : Prop :=
  match dart_entrypoint_arguments (self st) with
  | Some p => is_Some (heap st !! p)
  | None => True
  end.

(** The names and values [configure_mesa_rendering] passes to its first
    twelve [setenv] calls. *)
Definition mesa_workarounds : list (string * string) :=
  [ ("vblank_mode", "0");
    ("LIBGL_DRI3_DISABLE", "1");
    ("CLUTTER_PAINT", "disable-clipped-redraws:disable-culling");
    ("MESA_GLSL_CACHE_DISABLE", "1");
    ("MESA_SHADER_CACHE_DISABLE", "1");
    ("mesa_glthread", "false");
    ("MESA_NO_MEMOBJ_CACHE", "1");
    ("MESA_DEBUG", "flush");
    ("force_s3tc_enable", "false");
    ("MESA_EXTENSION_OVERRIDE", "-GL_ARB_buffer_storage -GL_EXT_buffer_storage");
    ("LP_NUM_THREADS", "1");
    ("MESA_FBO_CACHE", "0") ].

(** The lines [configure_mesa_rendering] prints once it is done. *)
Definition mesa_notice : list string :=
  [ "BizSync: Mesa software rendering detected, applying comprehensive workarounds" +:+ CString.LF;
    "  - Disabled vsync (vblank_mode=0)" +:+ CString.LF;
    "  - Disabled DRI3 (LIBGL_DRI3_DISABLE=1)" +:+ CString.LF;
    "  - Disabled GLSL cache" +:+ CString.LF;
    "  - Single-threaded rendering (LP_NUM_THREADS=1)" +:+ CString.LF;
    "  - Synchronous flushing enabled" +:+ CString.LF ].

(** Assigning a list of variables, first to last. *)
Definition assign_all (kvs : list (string * string))
    (env : gmap string string) : gmap string string :=
  foldl (λ e kv, <[kv.1:=kv.2]> e) env kvs.

(** The guard of the thirteenth [setenv] of [configure_mesa_rendering],
    over the environment it reads [GDK_BACKEND] from. *)
Definition forces_x11_backend (pf : Platform) (env : gmap string string)
  : bool :=
  match env !! "GDK_BACKEND" with
  | None => true
  | Some b => bool_decide (CString.strcmp b "wayland" = Eq)
  end
  && bool_decide (gdk_display_get_default pf ≠ None)
  && GDK_WINDOWING_X11 (build pf)
  && GDK_IS_X11_DISPLAY (gdk_display_get_default pf).

(** *** Sample inputs *)

(** A process started with nothing relevant in its environment. *)
Definition plain_state : State :=
  {| environ := {[ "HOME" := "/root" ]}; heap := ∅; self := zeroed_instance |}.

(** A process started under llvmpipe, by a user who set two of the
    workaround variables to other values. *)
Definition llvmpipe_state : State :=
  {| environ := {[ "GL_RENDERER" := "llvmpipe (LLVM 15.0.7, 256 bits)";
                   "vblank_mode" := "3";
                   "LP_NUM_THREADS" := "8" ]};
     heap := ∅; self := zeroed_instance |}.

Definition full_build : BuildConfig :=
  {| GDK_WINDOWING_X11 := true; GDK_WINDOWING_WAYLAND := true |}.

(** An X11 session under the given window manager. *)
Definition x11_platform (wm_name : string) : Platform :=
  {| build := full_build;
     gdk_display_get_default := Some X11Display;
     gtk_window_get_screen := X11Screen (Some wm_name);
     gdk_screen_get_system_visual := true;
     g_application_register := Registered |}.

(** A state that already owns an argument vector. *)
Definition running_state : State :=
  {| environ := {[ "HOME" := "/root" ]};
     heap := {[ 7%nat := ["--verbose"; "data.db"] ]};
     self := {| dart_entrypoint_arguments := Some 7%nat |} |}.

(** A platform on which registration is refused. *)
Definition unregistered_platform : Platform :=
  {| build := full_build;
     gdk_display_get_default := None;
     gtk_window_get_screen := OtherScreen;
     gdk_screen_get_system_visual := false;
     g_application_register := RegisterFailed "already running" |}.

(** The toolkits before the parent class has opened a display. *)
Definition before_display : Platform :=
  {| build := full_build;
     gdk_display_get_default := None;
     gtk_window_get_screen := OtherScreen;
     gdk_screen_get_system_visual := false;
     g_application_register := Registered |}.

(** The first run of an application under the given window manager:
    registration emits [startup] before any display is open, activation
    happens on the X11 display. *)
Definition first_run (wm_name : string) : Emissions :=
  {| startup_emitted := Some before_display;
     activate_emitted := x11_platform wm_name |}.

(** *** The specification's reading of the environment *)

(** Software rendering as the specification words it: the flag variable
    equals its sentinel, or the renderer identifier contains one of the
    three rasterizer names. *)
Definition spec_software_rendering (env : gmap string string) : Prop :=
  env !! "LIBGL_ALWAYS_SOFTWARE" = Some "1"
  ∨ ∃ r, env !! "GL_RENDERER" = Some r
         ∧ (CString.contains r "llvmpipe"
            ∨ CString.contains r "softpipe"
            ∨ CString.contains r "swrast").

(** The backend selector may be overridden, in the specification's words:
    it was unset or named the Wayland protocol, and the default display
    exists and is an X11 display. *)
Definition spec_backend_override (pf : Platform) (env : gmap string string)
  : Prop :=
  (env !! "GDK_BACKEND" = None ∨ env !! "GDK_BACKEND" = Some "wayland")
  ∧ gdk_display_get_default pf = Some X11Display.

(** The command-line handler strips the binary name, in the
    specification's words: it stores a vector that is the input minus its
    first element, one element shorter than the input. *)
Definition spec_strips_binary_name
    (pf : Platform) (inner : Emissions) (arguments : list string)
    (st : State) : Prop :=
  ∃ r st' evs p stored,
    my_application_local_command_line pf inner arguments st
    = Some (r, st', evs)
    ∧ dart_entrypoint_arguments (self st') = Some p
    ∧ heap st' !! p = Some stored
    ∧ stored = drop 1 arguments
    ∧ S (length stored) = length arguments.

(** *** Further readings of a trace *)

(** The lines printed with [g_print], in order. *)
Definition printed (evs : list Event) : list string :=
  omap (λ e, match e with GPrint text => Some text | _ => None end) evs.

(** The addresses at which string vectors were allocated, in order. *)
Definition allocated (evs : list Event) : list nat :=
  omap (λ e, match e with Strdupv p => Some p | _ => None end) evs.

(** The toolkit calls of a trace, in order. *)
Definition gtk_calls (evs : list Event) : list GtkCall :=
  omap (λ e, match e with Gtk call => Some call | _ => None end) evs.

(** The setting the last [gtk_widget_set_app_paintable] call on [w] left,
    if there was one. *)
Definition final_app_paintable (w : Widget) (calls : list GtkCall)
  : option bool :=
  last (omap (λ call, match call with
                      | gtk_widget_set_app_paintable w' setting =>
                          if bool_decide (w' = w) then Some setting else None
                      | _ => None
                      end) calls).

(** The widgets given a visual with [gtk_widget_set_visual], in order. *)
Definition visual_set (calls : list GtkCall) : list Widget :=
  omap (λ call, match call with
                | gtk_widget_set_visual w => Some w
                | _ => None
                end) calls.

(** The vectors handed to the Dart project, in order. *)
Definition entrypoint_arguments_passed (calls : list GtkCall)
  : list (option (list string)) :=
  omap (λ call, match call with
                | fl_dart_project_set_dart_entrypoint_arguments argv => Some argv
                | _ => None
                end) calls.

(** A Wayland session. *)
Definition wayland_platform : Platform :=
  {| build := full_build;
     gdk_display_get_default := Some WaylandDisplay;
     gtk_window_get_screen := OtherScreen;
     gdk_screen_get_system_visual := true;
     g_application_register := Registered |}.

(** * Properties *)

(** ** C strings *)

Module CStringFacts.
Import CString.

Lemma append_nil t : "" +:+ t = t.
Proof. reflexivity. Qed.

Lemma append_cons c s t : String c s +:+ t = String c (s +:+ t).
Proof. reflexivity. Qed.

Ltac unfold_append := rewrite ?append_cons, ?append_nil in *.

Lemma strcmp_Eq s1 s2 : strcmp s1 s2 = Eq ↔ s1 = s2.
Proof.
  split.
  - apply String.compare_eq_iff.
  - intros ->. unfold strcmp.
    induction s2 as [|c s IH]; simpl; [done|].
    unfold Ascii.compare. by rewrite N.compare_refl.
Qed.

Lemma g_strcmp0_Eq s1 s2 : g_strcmp0 s1 s2 = Eq ↔ s1 = s2.
Proof.
  destruct s1 as [a|], s2 as [b|]; simpl; [|done..].
  rewrite strcmp_Eq. split; congruence.
Qed.

Lemma starts_with_spec needle haystack :
  starts_with needle haystack = true ↔ ∃ after, haystack = needle +:+ after.
Proof.
  revert haystack.
  induction needle as [|c n IH]; intros [|d h]; simpl.
  - split; [by exists EmptyString | done].
  - split; [by exists (String d h) | done].
  - split; [done | by intros [after ?]].
  - destruct (Ascii.eqb_spec c d) as [->|Hne].
    + rewrite IH. split; intros [after Ha]; exists after;
        unfold_append; congruence.
    + split; [done|]. intros [after Ha]. unfold_append. congruence.
Qed.

Lemma starts_with_contains needle haystack :
  starts_with needle haystack = true → contains haystack needle.
Proof.
  intros [after ->]%starts_with_spec. by exists EmptyString, after.
Qed.

Lemma strstr_contains haystack needle :
  strstr haystack needle ≠ None ↔ contains haystack needle.
Proof.
  induction haystack as [|d h IH]; simpl.
  - destruct (starts_with needle "") eqn:Hp.
    + split; [intros _ | done]. by apply starts_with_contains.
    + split; [done|]. intros ([|b before] & after & Ha); unfold_append.
      * assert (starts_with needle "" = true); [|congruence].
        apply starts_with_spec. eauto.
      * discriminate.
  - destruct (starts_with needle (String d h)) eqn:Hp.
    + split; [intros _ | done]. by apply starts_with_contains.
    + rewrite IH. split.
      * intros (before & after & ->). by exists (String d before), after.
      * intros ([|b before] & after & Ha); unfold_append.
        -- assert (starts_with needle (String d h) = true); [|congruence].
           apply starts_with_spec. eauto.
        -- injection Ha as _ ->. by exists before, after.
Qed.

(** [strstr] hands back a suffix that begins with the needle. *)
Lemma strstr_Some haystack needle found :
  strstr haystack needle = Some found →
  starts_with needle found = true ∧ ∃ before, haystack = before +:+ found.
Proof.
  induction haystack as [|d h IH]; simpl.
  - destruct (starts_with needle "") eqn:Hp; [|done].
    intros [= <-]. split; [done | by exists EmptyString].
  - destruct (starts_with needle (String d h)) eqn:Hp.
    + intros [= <-]. split; [done | by exists EmptyString].
    + intros Hs. destruct (IH Hs) as [? [before ->]].
      split; [done | by exists (String d before)].
Qed.

End CStringFacts.

(** ** The rendering-mode detector *)

(** The detector never fails, changes nothing and causes no event; its
    answer depends on the environment only. *)
Lemma is_mesa_software_rendering_pure st :
  ∃ b, is_mesa_software_rendering st = Some (b, st, []).
Proof.
  cbv [is_mesa_software_rendering mbind M_bind getenv ret].
  destruct (environ st !! "LIBGL_ALWAYS_SOFTWARE") as [r|];
    [destruct (bool_decide _); [by eexists|] |];
    (destruct (environ st !! "GL_RENDERER") as [g|]; [|by eexists];
     destruct (_ || _); by eexists).
Qed.

(** The three [strstr] tests, read as "contains". *)
Lemma rasterizer_names_spec (r : string) :
  bool_decide (CString.strstr r "llvmpipe" ≠ None)
  || bool_decide (CString.strstr r "softpipe" ≠ None)
  || bool_decide (CString.strstr r "swrast" ≠ None) = true
  ↔ CString.contains r "llvmpipe"
    ∨ CString.contains r "softpipe"
    ∨ CString.contains r "swrast".
Proof.
  rewrite !orb_true_iff, !bool_decide_eq_true, !CStringFacts.strstr_contains.
  tauto.
Qed.

(** C1.  Whatever the two variables hold, the detector answers, leaving
    the state alone, and its answer is [true] exactly when
    [LIBGL_ALWAYS_SOFTWARE] is set to "1", or [GL_RENDERER] is set and
    contains "llvmpipe", "softpipe" or "swrast" byte for byte; otherwise
    it is [false]. *)
Theorem is_mesa_software_rendering_spec (st : State) :
  ∃ b, is_mesa_software_rendering st = Some (b, st, [])
       ∧ (b = true ↔ spec_software_rendering (environ st))
       ∧ (b = false ↔ ¬ spec_software_rendering (environ st)).
Proof.
  assert (∃ b, is_mesa_software_rendering st = Some (b, st, [])
               ∧ (b = true ↔ spec_software_rendering (environ st)))
    as (b & Hrun & Hb).
  { cbv [is_mesa_software_rendering mbind M_bind getenv ret
         spec_software_rendering].
    destruct (environ st !! "LIBGL_ALWAYS_SOFTWARE") as [r|] eqn:Hflag;
      [case_bool_decide as Hcmp; [|rewrite CStringFacts.strcmp_Eq in Hcmp] |];
      [ | destruct (environ st !! "GL_RENDERER") as [g|] eqn:Hgl;
          [destruct (_ || _) eqn:Hnames|] ..];
      eexists; (split; [reflexivity|]).
    - apply CStringFacts.strcmp_Eq in Hcmp as ->. split; [by left | done].
    - split; [|done]. intros _. right. exists g.
      split; [done|]. by apply rasterizer_names_spec.
    - split; [done|]. intros [[= ->]|(g' & [= <-] & Hg)]; [done|].
      apply rasterizer_names_spec in Hg. congruence.
    - split; [done|]. by intros [[= ->]|(g' & [=] & _)].
    - split; [|done]. intros _. right. exists g.
      split; [done|]. by apply rasterizer_names_spec.
    - split; [done|]. intros [[=]|(g' & [= <-] & Hg)].
      apply rasterizer_names_spec in Hg. congruence.
    - split; [done|]. by intros [[=]|(g' & [=] & _)]. }
  exists b. split; [done|]. split; [done|].
  rewrite <- Hb. destruct b; split; congruence.
Qed.

(** ** The environment configurator *)

Lemma setenv_overwrite name value overwrite st :
  overwrite ≠ 0 →
  setenv name value overwrite st
  = Some (0, {| environ := <[name:=value]> (environ st);
                heap := heap st; self := self st |},
          [Setenv name value overwrite]).
Proof.
  intros Ho. unfold setenv.
  destruct (environ st !! name); [|done].
  by destruct (Z.eqb_spec overwrite 0).
Qed.

(** Without the overwrite flag a variable that is set keeps its value. *)
Lemma setenv_keep name value old st :
  environ st !! name = Some old →
  setenv name value 0 st = Some (0, st, [Setenv name value 0]).
Proof. intros Hold. unfold setenv. rewrite Hold. by destruct st. Qed.

Lemma forces_x11_backend_assign pf env :
  forces_x11_backend pf (assign_all mesa_workarounds env)
  = forces_x11_backend pf env.
Proof.
  unfold forces_x11_backend, assign_all, mesa_workarounds. simpl foldl.
  by rewrite !lookup_insert_ne.
Qed.

(** What the configurator does once the detector has said yes. *)
Lemma configure_mesa_rendering_triggered pf st :
  is_mesa_software_rendering st = Some (true, st, []) →
  configure_mesa_rendering pf st
  = Some (tt,
          {| environ :=
               (if forces_x11_backend pf (environ st)
                then <["GDK_BACKEND":="x11"]> else id)
                 (assign_all mesa_workarounds (environ st));
             heap := heap st; self := self st |},
          ((λ kv, Setenv kv.1 kv.2 1) <$> mesa_workarounds)
          ++ (if forces_x11_backend pf (environ st)
              then [Setenv "GDK_BACKEND" "x11" 1] else [])
          ++ (GPrint <$> mesa_notice)).
Proof.
  intros Hdet. rewrite <- (forces_x11_backend_assign pf (environ st)).
  destruct st as [env hp slf].
  cbv [configure_mesa_rendering mbind M_bind]. rewrite Hdet.
  repeat (rewrite setenv_overwrite by done; cbv beta iota delta [environ heap self]).
  cbv beta iota zeta delta [getenv environ forces_x11_backend].
  cbv beta iota delta [assign_all mesa_workarounds foldl fst snd].
  destruct (_ !! "GDK_BACKEND") as [b|];
    [destruct (bool_decide (CString.strcmp b "wayland" = Eq))|];
    destruct (bool_decide (gdk_display_get_default pf ≠ None));
    destruct (GDK_WINDOWING_X11 (build pf));
    destruct (GDK_IS_X11_DISPLAY (gdk_display_get_default pf));
    cbv beta iota delta [andb];
    try (rewrite setenv_overwrite by done;
         cbv beta iota delta [environ heap self]);
    reflexivity.
Qed.

Lemma assign_all_lookup_notin kvs (env : gmap string string) name :
  name ∉ kvs.*1 → assign_all kvs env !! name = env !! name.
Proof.
  revert env. induction kvs as [|[k v] kvs IH]; intros env Hnotin; [done|].
  rewrite fmap_cons, not_elem_of_cons in Hnotin. destruct Hnotin as [Hne Hrest].
  unfold assign_all in *. simpl. rewrite IH by done.
  by apply lookup_insert_ne.
Qed.

Lemma assign_all_lookup kvs (env : gmap string string) name value :
  NoDup kvs.*1 → (name, value) ∈ kvs →
  assign_all kvs env !! name = Some value.
Proof.
  revert env. induction kvs as [|[k v] kvs IH]; intros env Hnodup Hin.
  - by apply elem_of_nil in Hin.
  - rewrite fmap_cons in Hnodup. apply NoDup_cons in Hnodup as [Hk Hnodup].
    apply elem_of_cons in Hin as [[= -> ->]|Hin].
    + change (assign_all ((k, v) :: kvs) env)
        with (assign_all kvs (<[k:=v]> env)).
      rewrite assign_all_lookup_notin by done. apply lookup_insert_eq.
    + change (assign_all ((k, v) :: kvs) env)
        with (assign_all kvs (<[k:=v]> env)).
      by apply IH.
Qed.

Lemma mesa_workarounds_NoDup : NoDup mesa_workarounds.*1.
Proof. apply (bool_decide_unpack _). by vm_compute. Qed.

Lemma GDK_BACKEND_not_workaround : "GDK_BACKEND" ∉ mesa_workarounds.*1.
Proof. apply (bool_decide_unpack _). by vm_compute. Qed.

(** The guard in the code is the specification's condition, given that GDK
    was built with its X11 back end. *)
Lemma forces_x11_backend_spec pf env :
  (forces_x11_backend pf env = true → spec_backend_override pf env)
  ∧ (GDK_WINDOWING_X11 (build pf) = true →
     spec_backend_override pf env → forces_x11_backend pf env = true).
Proof.
  unfold forces_x11_backend, spec_backend_override. split.
  - rewrite !andb_true_iff. intros [[[Hb _] _] Hx11]. split.
    + destruct (env !! "GDK_BACKEND") as [b|]; [right | by left].
      apply bool_decide_eq_true, CStringFacts.strcmp_Eq in Hb. by subst.
    + by destruct (gdk_display_get_default pf) as [[]|].
  - intros -> [Hb ->]. rewrite !andb_true_iff. split_and!; try done.
    destruct Hb as [->| ->]; [done|].
    by apply bool_decide_eq_true, CStringFacts.strcmp_Eq.
Qed.

(** The twelve literals survive the guarded thirteenth assignment. *)
Lemma configured_lookup (force : bool) (env : gmap string string) name value :
  (name, value) ∈ mesa_workarounds →
  (if force then <["GDK_BACKEND":="x11"]> else id)
    (assign_all mesa_workarounds env) !! name = Some value.
Proof.
  intros Hin.
  assert (name ≠ "GDK_BACKEND") as Hne.
  { intros ->. apply GDK_BACKEND_not_workaround.
    apply list_elem_of_fmap. by exists ("GDK_BACKEND", value). }
  destruct force; cbv beta iota delta [id];
    rewrite ?lookup_insert_ne by done;
    by apply assign_all_lookup, Hin; apply mesa_workarounds_NoDup.
Qed.

(** C3.  When the detector answers no, the configurator does nothing: it
    returns the state it was given, so every environment variable keeps
    its value, and it causes no event at all. *)
Theorem configure_mesa_rendering_noop (pf : Platform) (st : State) :
  is_mesa_software_rendering st = Some (false, st, []) →
  ∃ st' evs,
    configure_mesa_rendering pf st = Some (tt, st', evs)
    ∧ (∀ name, environ st' !! name = environ st !! name)
    ∧ st' = st
    ∧ evs = [].
Proof.
  intros Hdet. exists st, [].
  split; [|done].
  cbv [configure_mesa_rendering mbind M_bind]. by rewrite Hdet.
Qed.

(** C2.  When the detector answers yes, the configurator makes exactly the
    twelve [setenv] calls of [mesa_workarounds], each variable ending up
    with its literal, then at most one more, [GDK_BACKEND=x11]; that one
    is made only if [GDK_BACKEND] was unset or "wayland" and the default
    display exists and is an X11 display (and always then, when GDK has
    its X11 back end).  No other variable changes. *)
Theorem configure_mesa_rendering_sets (pf : Platform) (st : State) :
  is_mesa_software_rendering st = Some (true, st, []) →
  ∃ st' evs,
    configure_mesa_rendering pf st = Some (tt, st', evs)
    ∧ setenv_calls evs
      = ((λ kv, (kv.1, kv.2, 1)) <$> mesa_workarounds)
        ++ (if forces_x11_backend pf (environ st)
            then [("GDK_BACKEND", "x11", 1)] else [])
    ∧ length mesa_workarounds = 12%nat
    ∧ (∀ name value,
         (name, value) ∈ mesa_workarounds → environ st' !! name = Some value)
    ∧ (∀ name,
         name ∉ mesa_workarounds.*1 → name ≠ "GDK_BACKEND" →
         environ st' !! name = environ st !! name)
    ∧ environ st' !! "GDK_BACKEND"
      = (if forces_x11_backend pf (environ st)
         then Some "x11" else environ st !! "GDK_BACKEND")
    ∧ (forces_x11_backend pf (environ st) = true →
       spec_backend_override pf (environ st))
    ∧ (GDK_WINDOWING_X11 (build pf) = true →
       spec_backend_override pf (environ st) →
       forces_x11_backend pf (environ st) = true).
Proof.
  intros Hdet. eexists _, _.
  split; [by apply configure_mesa_rendering_triggered|].
  cbn [environ].
  destruct (forces_x11_backend_spec pf (environ st)) as [Honly Hif].
  split; [by destruct (forces_x11_backend pf (environ st))|].
  split; [done|].
  split; [|split; [|split; [|done]]].
  - intros name value Hin. by apply configured_lookup.
  - intros name Hnotin Hne.
    destruct (forces_x11_backend pf (environ st)); cbv beta iota delta [id];
      rewrite ?lookup_insert_ne by done;
      by apply assign_all_lookup_notin.
  - destruct (forces_x11_backend pf (environ st)); cbv beta iota delta [id].
    + apply lookup_insert_eq.
    + apply assign_all_lookup_notin, GDK_BACKEND_not_workaround.
Qed.

Lemma configure_mesa_rendering_noop_witness :
  is_mesa_software_rendering plain_state = Some (false, plain_state, [])
  ∧ ∃ st' evs,
      configure_mesa_rendering (x11_platform "i3") plain_state
      = Some (tt, st', evs)
      ∧ st' = plain_state ∧ evs = [].
Proof.
  assert (is_mesa_software_rendering plain_state
          = Some (false, plain_state, [])) as Hdet by (vm_compute; reflexivity).
  split; [exact Hdet|].
  destruct (configure_mesa_rendering_noop (x11_platform "i3") plain_state Hdet)
    as (st' & evs & Hrun & _ & Hst & Hevs).
  by exists st', evs.
Defined.

Lemma configure_mesa_rendering_sets_witness :
  is_mesa_software_rendering llvmpipe_state = Some (true, llvmpipe_state, [])
  ∧ ∃ st' evs,
      configure_mesa_rendering (x11_platform "i3") llvmpipe_state
      = Some (tt, st', evs)
      ∧ environ st' !! "MESA_DEBUG" = Some "flush"
      ∧ environ st' !! "GDK_BACKEND" = Some "x11"
      ∧ environ st' !! "GL_RENDERER" = environ llvmpipe_state !! "GL_RENDERER".
Proof.
  assert (is_mesa_software_rendering llvmpipe_state
          = Some (true, llvmpipe_state, [])) as Hdet by (vm_compute; reflexivity).
  split; [exact Hdet|].
  destruct (configure_mesa_rendering_sets (x11_platform "i3") llvmpipe_state Hdet)
    as (st' & evs & Hrun & _ & _ & Hset & Hframe & Hbackend & _).
  exists st', evs. split; [done|]. split; [|split].
  - apply Hset. apply (bool_decide_unpack _). by vm_compute.
  - by rewrite Hbackend.
  - apply Hframe; [|done]. apply (bool_decide_unpack _). by vm_compute.
Defined.

(** C9.  When the configurator triggers, each of the twelve workaround
    variables is written by a [setenv] call whose overwrite flag is set,
    so it holds the fixed literal afterwards whatever it held before;
    every [setenv] call of the configurator has the flag set, and the only
    call beyond the twelve is the guarded one on [GDK_BACKEND]. *)
Theorem configure_mesa_rendering_overwrites (pf : Platform) (st : State) :
  is_mesa_software_rendering st = Some (true, st, []) →
  ∃ st' evs,
    configure_mesa_rendering pf st = Some (tt, st', evs)
    ∧ (∀ name value,
         (name, value) ∈ mesa_workarounds →
         Setenv name value 1 ∈ evs ∧ environ st' !! name = Some value)
    ∧ (∀ name value overwrite,
         Setenv name value overwrite ∈ evs →
         overwrite = 1
         ∧ ((name, value) ∈ mesa_workarounds
            ∨ (name = "GDK_BACKEND" ∧ value = "x11"
               ∧ forces_x11_backend pf (environ st) = true))).
Proof.
  intros Hdet. eexists _, _.
  split; [by apply configure_mesa_rendering_triggered|].
  cbn [environ]. split.
  - intros name value Hin. split; [|by apply configured_lookup].
    apply elem_of_app. left.
    apply list_elem_of_fmap. by exists (name, value).
  - intros name value overwrite Hev.
    apply elem_of_app in Hev as [Hev|Hev]; [|apply elem_of_app in Hev as [Hev|Hev]].
    + apply list_elem_of_fmap in Hev as ([k v] & [= -> -> ->] & Hin).
      split; [done | by left].
    + destruct (forces_x11_backend pf (environ st)).
      * apply list_elem_of_singleton in Hev as [= -> -> ->].
        split; [done | by right].
      * by apply elem_of_nil in Hev.
    + by apply list_elem_of_fmap in Hev as (text & [=] & _).
Qed.

Lemma configure_mesa_rendering_overwrites_witness :
  is_mesa_software_rendering llvmpipe_state = Some (true, llvmpipe_state, [])
  ∧ environ llvmpipe_state !! "vblank_mode" = Some "3"
  ∧ ∃ st' evs,
      configure_mesa_rendering (x11_platform "i3") llvmpipe_state
      = Some (tt, st', evs)
      ∧ environ st' !! "vblank_mode" = Some "0"
      ∧ environ st' !! "LP_NUM_THREADS" = Some "1".
Proof.
  assert (is_mesa_software_rendering llvmpipe_state
          = Some (true, llvmpipe_state, [])) as Hdet by (vm_compute; reflexivity).
  split; [exact Hdet|]. split; [by vm_compute|].
  destruct (configure_mesa_rendering_overwrites
              (x11_platform "i3") llvmpipe_state Hdet)
    as (st' & evs & Hrun & Hset & _).
  exists st', evs. split; [done|]. split.
  - apply Hset. apply (bool_decide_unpack _). by vm_compute.
  - apply Hset. apply (bool_decide_unpack _). by vm_compute.
Defined.

(** ** The activation handler *)

Lemma strv_deref_valid st :
  arguments_valid st →
  ∃ argv, strv_deref (dart_entrypoint_arguments (self st)) st
          = Some (argv, st, []).
Proof.
  unfold arguments_valid, strv_deref.
  destruct (dart_entrypoint_arguments (self st)) as [p|]; [|by eexists].
  intros [strings ->]. by eexists.
Qed.

(** The calls of one activation, in order. *)
Lemma my_application_activate_run pf st argv software :
  strv_deref (dart_entrypoint_arguments (self st)) st = Some (argv, st, []) →
  is_mesa_software_rendering st = Some (software, st, []) →
  my_application_activate pf st
  = Some (tt, st,
          (Gtk <$>
          ([gtk_application_window_new;
            gtk_window_set_resizable true;
            gtk_window_set_decorated true]
           ++ (if activate_is_wayland pf
               then [gtk_window_set_type_hint_NORMAL;
                     gtk_widget_set_app_paintable window true]
               else [])
           ++ (if activate_use_header_bar pf
               then [gtk_header_bar_new;
                     gtk_widget_show header_bar;
                     gtk_header_bar_set_title "bizsync";
                     gtk_header_bar_set_show_close_button true;
                     gtk_window_set_titlebar header_bar]
               else [gtk_window_set_title "bizsync"])
           ++ [gtk_window_set_default_size 1280 720]
           ++ (if activate_is_wayland pf
               then [gtk_widget_set_size_request window 800 600]
               else [])
           ++ [gtk_widget_show window;
               fl_dart_project_new;
               fl_dart_project_set_dart_entrypoint_arguments argv;
               fl_view_new]
           ++ (if activate_is_wayland pf
               then [gtk_widget_set_can_focus view true;
                     gtk_widget_set_receives_default view true;
                     gtk_widget_set_app_paintable view true]
               else [])
           ++ (if software
               then gtk_widget_set_app_paintable view false
                    :: (if gdk_screen_get_system_visual pf
                        then [gtk_widget_set_visual window;
                              gtk_widget_set_visual view]
                        else [])
               else [])
           ++ [gtk_widget_show view;
               gtk_container_add window view;
               fl_register_plugins;
               gtk_widget_grab_focus view]))
          ++ [AutoptrCleanup project]).
Proof.
  intros Hargv Hdet.
  cbv beta iota zeta delta [my_application_activate mbind M_bind gtk emit ret
                            get_dart_entrypoint_arguments].
  destruct (activate_is_wayland pf), (activate_use_header_bar pf);
    cbv beta iota; rewrite Hargv; cbv beta iota; rewrite Hdet;
    destruct software, (gdk_screen_get_system_visual pf); reflexivity.
Qed.

(** The title calls of an activation follow the header-bar decision. *)
Lemma my_application_activate_title pf st :
  arguments_valid st →
  ∃ evs,
    my_application_activate pf st = Some (tt, st, evs)
    ∧ title_calls evs
      = if activate_use_header_bar pf
        then [gtk_header_bar_new;
              gtk_widget_show header_bar;
              gtk_header_bar_set_title "bizsync";
              gtk_header_bar_set_show_close_button true;
              gtk_window_set_titlebar header_bar]
        else [gtk_window_set_title "bizsync"].
Proof.
  intros [argv Hargv]%strv_deref_valid.
  destruct (is_mesa_software_rendering_pure st) as [software Hdet].
  eexists. split; [by apply my_application_activate_run|].
  by destruct (activate_is_wayland pf), (activate_use_header_bar pf),
    software, (gdk_screen_get_system_visual pf).
Qed.

(** C6.  The header-bar decision of the activation handler: a Wayland
    display gets the header bar; an X11 display whose window manager is
    named "GNOME Shell" gets it; an X11 display under any other window
    manager gets the plain title instead; a display that is neither, or
    no display, gets the header bar.  The calls of the handler that set
    the title are those of the branch decided. *)
Theorem my_application_activate_header_bar (pf : Platform) (st : State) :
  arguments_valid st →
  (∃ evs,
     my_application_activate pf st = Some (tt, st, evs)
     ∧ title_calls evs
       = if activate_use_header_bar pf
         then [gtk_header_bar_new;
               gtk_widget_show header_bar;
               gtk_header_bar_set_title "bizsync";
               gtk_header_bar_set_show_close_button true;
               gtk_window_set_titlebar header_bar]
         else [gtk_window_set_title "bizsync"])
  ∧ (gdk_display_get_default pf = Some WaylandDisplay →
     activate_use_header_bar pf = true)
  ∧ (gdk_display_get_default pf = Some X11Display →
     gtk_window_get_screen pf = X11Screen (Some "GNOME Shell") →
     activate_use_header_bar pf = true)
  ∧ (∀ wm_name,
       GDK_WINDOWING_X11 (build pf) = true →
       gdk_display_get_default pf = Some X11Display →
       gtk_window_get_screen pf = X11Screen wm_name →
       wm_name ≠ Some "GNOME Shell" →
       activate_use_header_bar pf = false)
  ∧ (GDK_IS_WAYLAND_DISPLAY (gdk_display_get_default pf) = false →
     GDK_IS_X11_DISPLAY (gdk_display_get_default pf) = false →
     activate_use_header_bar pf = true).
Proof.
  intros Hvalid. split; [by apply my_application_activate_title|].
  unfold activate_use_header_bar. split_and!.
  - intros ->. by destruct (GDK_WINDOWING_X11 (build pf)),
      (GDK_WINDOWING_WAYLAND (build pf)).
  - intros -> ->. by destruct (GDK_WINDOWING_X11 (build pf)),
      (GDK_WINDOWING_WAYLAND (build pf)).
  - intros wm_name -> -> -> Hwm.
    rewrite andb_false_r.
    cbv beta iota zeta delta [GDK_IS_X11_DISPLAY GDK_IS_X11_SCREEN andb
                              gdk_x11_screen_get_window_manager_name].
    rewrite bool_decide_eq_true_2; [done|].
    by rewrite CStringFacts.g_strcmp0_Eq.
  - intros -> ->. by rewrite !andb_false_r.
Qed.

Lemma my_application_activate_header_bar_witness :
  arguments_valid plain_state
  ∧ activate_use_header_bar (x11_platform "i3") = false
  ∧ activate_use_header_bar (x11_platform "GNOME Shell") = true.
Proof.
  assert (arguments_valid plain_state) as Hvalid by exact I.
  split; [exact Hvalid|].
  destruct (my_application_activate_header_bar
              (x11_platform "i3") plain_state Hvalid)
    as (_ & _ & _ & Hother & _).
  destruct (my_application_activate_header_bar
              (x11_platform "GNOME Shell") plain_state Hvalid)
    as (_ & _ & Hgnome & _).
  split.
  - apply (Hother (Some "i3")); [reflexivity..|discriminate].
  - apply Hgnome; reflexivity.
Defined.

(** An activation that returns read a valid argument pointer. *)
Lemma my_application_activate_inputs pf st st' evs :
  my_application_activate pf st = Some (tt, st', evs) →
  ∃ argv software,
    strv_deref (dart_entrypoint_arguments (self st)) st = Some (argv, st, [])
    ∧ is_mesa_software_rendering st = Some (software, st, []).
Proof.
  intros Hrun.
  destruct (is_mesa_software_rendering_pure st) as [software Hdet].
  destruct (strv_deref (dart_entrypoint_arguments (self st)) st)
    as [[[argv st1] evs1]|] eqn:Hargv.
  - exists argv, software. split; [|done].
    unfold strv_deref in Hargv.
    destruct (dart_entrypoint_arguments (self st)) as [p|];
      [destruct (heap st !! p)|]; by simplify_eq.
  - revert Hrun.
    cbv beta iota zeta delta [my_application_activate mbind M_bind gtk emit ret
                              get_dart_entrypoint_arguments].
    by destruct (activate_is_wayland pf), (activate_use_header_bar pf);
      cbv beta iota; rewrite Hargv.
Qed.

(** Case analysis on everything the shape of an activation trace depends
    on. *)
Ltac activate_cases pf software :=
  destruct (activate_is_wayland pf), (activate_use_header_bar pf),
    software, (gdk_screen_get_system_visual pf).

(** Activation, where the Flutter view is created, writes no variable. *)
Lemma my_application_activate_no_setenv pf st st' evs :
  my_application_activate pf st = Some (tt, st', evs) →
  st' = st ∧ setenv_calls evs = [].
Proof.
  intros Hrun.
  destruct (my_application_activate_inputs _ _ _ _ Hrun)
    as (argv & software & Hargv & Hdet).
  rewrite (my_application_activate_run pf st argv software) in Hrun by done.
  injection Hrun as <- <-. split; [done|].
  by activate_cases pf software.
Qed.

(** On a valid pointer an activation completes; it creates the Flutter
    view, once, and nothing in its trace is a write, an allocation, a
    release, a registration or a warning. *)
Lemma my_application_activate_total pf st :
  arguments_valid st →
  ∃ evs,
    my_application_activate pf st = Some (tt, st, evs)
    ∧ quiet evs
    ∧ setenv_calls evs = []
    ∧ (ParentStartup ∉ evs)
    ∧ Gtk fl_view_new ∈ evs.
Proof.
  intros [argv Hargv]%strv_deref_valid.
  destruct (is_mesa_software_rendering_pure st) as [software Hdet].
  eexists. split; [by apply my_application_activate_run|].
  activate_cases pf software;
    (split_and!;
     [ by repeat constructor
     | done
     | apply (bool_decide_unpack _); by vm_compute
     | apply (bool_decide_unpack _); by vm_compute ]).
Qed.

(** ** Startup and shutdown *)

(** The configurator always completes, and causes nothing but [setenv]
    calls and printed lines. *)
Lemma configure_mesa_rendering_total pf st :
  ∃ st' evs,
    configure_mesa_rendering pf st = Some (tt, st', evs)
    ∧ heap st' = heap st ∧ self st' = self st
    ∧ Forall (λ e, match e with
                   | Setenv _ _ _ | GPrint _ => True
                   | _ => False
                   end) evs.
Proof.
  destruct (is_mesa_software_rendering_pure st) as [[] Hdet].
  - eexists _, _. split; [by apply configure_mesa_rendering_triggered|].
    split; [done|]. split; [done|].
    destruct (forces_x11_backend pf (environ st)); by repeat constructor.
  - exists st, []. split; [|done].
    cbv [configure_mesa_rendering mbind M_bind]. by rewrite Hdet.
Qed.

(** The startup hook completes and leaves the allocator and the instance
    alone. *)
Lemma my_application_startup_state pf st :
  ∃ st' evs,
    my_application_startup pf st = Some (tt, st', evs)
    ∧ heap st' = heap st ∧ self st' = self st.
Proof.
  destruct (configure_mesa_rendering_total pf st)
    as (st' & evs & Hrun & Hheap & Hself & _).
  exists st', (evs ++ [ParentStartup]). split; [|done].
  cbv [my_application_startup mbind M_bind emit]. by rewrite Hrun.
Qed.

(** The startup hook in full: the configurator's effects, then the
    chain-up. *)
Lemma my_application_startup_run pf st :
  ∃ st' evs,
    configure_mesa_rendering pf st = Some (tt, st', evs)
    ∧ my_application_startup pf st = Some (tt, st', evs ++ [ParentStartup])
    ∧ heap st' = heap st ∧ self st' = self st
    ∧ Forall (λ e, match e with
                   | Setenv _ _ _ | GPrint _ => True
                   | _ => False
                   end) evs.
Proof.
  destruct (configure_mesa_rendering_total pf st)
    as (st' & evs & Hrun & Hheap & Hself & Hevs).
  exists st', evs. split_and!; [done| |done..].
  cbv [my_application_startup mbind M_bind emit]. by rewrite Hrun.
Qed.

Lemma my_application_shutdown_run st :
  my_application_shutdown st = Some (tt, st, [ParentShutdown]).
Proof. reflexivity. Qed.

(** *** Quiet traces *)

Lemma quiet_app evs1 evs2 : quiet evs1 → quiet evs2 → quiet (evs1 ++ evs2).
Proof. apply Forall_app_2. Qed.

Lemma quiet_freed evs : quiet evs → freed evs = [].
Proof.
  induction 1 as [|e evs He _ IH]; [done|].
  unfold freed in *. by destruct e.
Qed.

Lemma quiet_allocated evs : quiet evs → allocated evs = [].
Proof.
  induction 1 as [|e evs He _ IH]; [done|].
  unfold allocated in *. by destruct e.
Qed.

Lemma quiet_activations evs : quiet evs → activations evs = 0%nat.
Proof.
  induction 1 as [|e evs He _ IH]; [done|].
  unfold activations in *. rewrite filter_cons.
  case_decide as Heq; [by subst e|done].
Qed.

Lemma quiet_no_warning evs text : quiet evs → GWarning text ∉ evs.
Proof.
  intros Hquiet Hin. unfold quiet in Hquiet.
  rewrite Forall_forall in Hquiet. by apply Hquiet in Hin.
Qed.

Lemma quiet_no_activate evs : quiet evs → ApplicationActivate ∉ evs.
Proof.
  intros Hquiet Hin. unfold quiet in Hquiet.
  rewrite Forall_forall in Hquiet. by apply Hquiet in Hin.
Qed.

(** The startup handler, when registration emits the signal: it
    completes, leaves the allocator and the instance alone, and its trace
    is quiet and free of toolkit calls. *)
Lemma startup_signal_total inner st :
  ∃ st' evs,
    startup_signal inner st = Some (tt, st', evs)
    ∧ heap st' = heap st ∧ self st' = self st
    ∧ quiet evs
    ∧ gtk_calls evs = [].
Proof.
  unfold startup_signal.
  destruct (startup_emitted inner) as [pf|];
    [|exists st, []; split_and!; by try constructor].
  destruct (my_application_startup_run pf st)
    as (st' & evs & _ & Hrun & Hheap & Hself & Hevs).
  exists st', (evs ++ [ParentStartup]). split_and!; [done..| |].
  - apply quiet_app; [|by repeat constructor].
    unfold quiet. eapply Forall_impl; [exact Hevs|]. by intros [].
  - unfold gtk_calls. rewrite omap_app. simpl. rewrite app_nil_r.
    clear -Hevs. induction Hevs as [|e evs' He _ IH]; [done|].
    destruct e; try done; exact IH.
Qed.

(** The detector reads two variables and nothing else. *)
Lemma is_mesa_software_rendering_reads st st' b :
  environ st' !! "LIBGL_ALWAYS_SOFTWARE" = environ st !! "LIBGL_ALWAYS_SOFTWARE" →
  environ st' !! "GL_RENDERER" = environ st !! "GL_RENDERER" →
  is_mesa_software_rendering st = Some (b, st, []) →
  is_mesa_software_rendering st' = Some (b, st', []).
Proof.
  intros Hflag Hgl.
  cbv [is_mesa_software_rendering mbind M_bind getenv ret].
  rewrite Hflag.
  destruct (environ st !! "LIBGL_ALWAYS_SOFTWARE") as [r|];
    [destruct (bool_decide _)|];
    cbv beta iota; rewrite ?Hgl;
    try (destruct (environ st !! "GL_RENDERER") as [g|];
         [destruct (_ || _)|]);
    by intros [= <-].
Qed.

(** The two outcomes of the configurator. *)
Lemma configure_mesa_rendering_cases pf st st' evs :
  configure_mesa_rendering pf st = Some (tt, st', evs) →
  (is_mesa_software_rendering st = Some (false, st, [])
   ∧ st' = st ∧ evs = [])
  ∨ (is_mesa_software_rendering st = Some (true, st, [])
     ∧ st' = {| environ :=
                  (if forces_x11_backend pf (environ st)
                   then <["GDK_BACKEND":="x11"]> else id)
                    (assign_all mesa_workarounds (environ st));
                heap := heap st; self := self st |}
     ∧ evs = ((λ kv, Setenv kv.1 kv.2 1) <$> mesa_workarounds)
             ++ (if forces_x11_backend pf (environ st)
                 then [Setenv "GDK_BACKEND" "x11" 1] else [])
             ++ (GPrint <$> mesa_notice)).
Proof.
  destruct (is_mesa_software_rendering_pure st) as [[] Hdet].
  - rewrite configure_mesa_rendering_triggered by done.
    intros Hrun. right. split; [done|].
    split; congruence.
  - cbv [configure_mesa_rendering mbind M_bind]. rewrite Hdet.
    intros [= <- <-]. by left.
Qed.

(** *** Where an event can stand in a trace *)

Lemma setenv_calls_nil evs name value overwrite :
  setenv_calls evs = [] → Setenv name value overwrite ∉ evs.
Proof.
  induction evs as [|e evs IH]; [intros _; apply not_elem_of_nil|].
  intros Hnil. apply not_elem_of_cons.
  destruct e; try done; (split; [done | by apply IH]).
Qed.

Lemma gtk_calls_nil evs call : gtk_calls evs = [] → Gtk call ∉ evs.
Proof.
  induction evs as [|e evs IH]; [intros _; apply not_elem_of_nil|].
  intros Hnil. apply not_elem_of_cons.
  destruct e; try done; (split; [done | by apply IH]).
Qed.

(** An event found only in the front part of a trace comes before an
    event found only in the back part. *)
Lemma front_before_back (front back : list Event) (a b : Event) i j :
  a ∉ back → b ∉ front →
  (front ++ back) !! i = Some a →
  (front ++ back) !! j = Some b →
  (i < j)%nat.
Proof.
  intros Ha Hb Hi Hj.
  apply lookup_app_Some in Hi as [Hi|[_ Hi]];
    [|by apply list_elem_of_lookup_2 in Hi].
  apply lookup_app_Some in Hj as [Hj|[Hj _]];
    [by apply list_elem_of_lookup_2 in Hj|].
  apply lookup_lt_Some in Hi. lia.
Qed.

(** ** The command-line handler *)

Lemma g_strv_read_strv (argv : list string) :
  g_strv_read (strv argv) = Some argv.
Proof.
  induction argv as [|s argv IH]; [done|].
  change (g_strv_read (strv (s :: argv)))
    with (cons s <$> g_strv_read (strv argv)).
  by rewrite IH.
Qed.

(** The handler up to the call of [g_application_register], on a vector
    that holds at least the binary name. *)
Lemma my_application_local_command_line_unfold pf inner prog rest st :
  my_application_local_command_line pf inner (prog :: rest) st
  = match
      match g_application_register pf with
      | RegisterFailed message =>
          g_warning ("Failed to register: " +:+ message);;
          emit (AutoptrCleanup error);;
          ret (true, 1)
      | Registered =>
          startup_signal inner;;
          g_application_activate inner;;
          ret (true, 0)
      end {| environ := environ st;
             heap := <[fresh (dom (heap st)):=rest]> (heap st);
             self := {| dart_entrypoint_arguments :=
                          Some (fresh (dom (heap st))) |} |}
    with
    | Some (r, st', evs) =>
        Some (r, st', [Strdupv (fresh (dom (heap st))); ApplicationRegister]
                      ++ evs)
    | None => None
    end.
Proof.
  destruct st as [env hp slf].
  cbv beta iota zeta
    delta [my_application_local_command_line g_strdupv].
  change (drop 1 (strv (prog :: rest))) with (strv rest).
  cbv beta iota zeta
    delta [mbind M_bind set_dart_entrypoint_arguments emit
           environ heap self].
  rewrite g_strv_read_strv.
  by destruct (_ {| environ := env |}) as [[[r st'] evs]|].
Qed.

(** A failed registration. *)
Lemma my_application_local_command_line_failed
    pf inner prog rest st message :
  g_application_register pf = RegisterFailed message →
  my_application_local_command_line pf inner (prog :: rest) st
  = Some ((true, 1),
          {| environ := environ st;
             heap := <[fresh (dom (heap st)):=rest]> (heap st);
             self := {| dart_entrypoint_arguments :=
                          Some (fresh (dom (heap st))) |} |},
          [Strdupv (fresh (dom (heap st))); ApplicationRegister;
           GWarning ("Failed to register: " +:+ message);
           AutoptrCleanup error]).
Proof.
  intros Hreg. rewrite my_application_local_command_line_unfold, Hreg.
  reflexivity.
Qed.

(** A successful registration: the startup handler runs if the signal is
    emitted, then the activation handler, both to completion; only the
    first may change the environment, and neither touches the stored
    vector. *)
Lemma my_application_local_command_line_registered pf inner prog rest st :
  g_application_register pf = Registered →
  ∃ env' evs_s evs_a,
    startup_signal inner
      {| environ := environ st;
         heap := <[fresh (dom (heap st)):=rest]> (heap st);
         self := {| dart_entrypoint_arguments :=
                      Some (fresh (dom (heap st))) |} |}
    = Some (tt,
            {| environ := env';
               heap := <[fresh (dom (heap st)):=rest]> (heap st);
               self := {| dart_entrypoint_arguments :=
                            Some (fresh (dom (heap st))) |} |},
            evs_s)
    ∧ my_application_activate (activate_emitted inner)
        {| environ := env';
           heap := <[fresh (dom (heap st)):=rest]> (heap st);
           self := {| dart_entrypoint_arguments :=
                        Some (fresh (dom (heap st))) |} |}
      = Some (tt,
              {| environ := env';
                 heap := <[fresh (dom (heap st)):=rest]> (heap st);
                 self := {| dart_entrypoint_arguments :=
                              Some (fresh (dom (heap st))) |} |},
              evs_a)
    ∧ my_application_local_command_line pf inner (prog :: rest) st
      = Some ((true, 0),
              {| environ := env';
                 heap := <[fresh (dom (heap st)):=rest]> (heap st);
                 self := {| dart_entrypoint_arguments :=
                              Some (fresh (dom (heap st))) |} |},
              [Strdupv (fresh (dom (heap st))); ApplicationRegister]
              ++ evs_s ++ ApplicationActivate :: evs_a)
    ∧ quiet evs_s ∧ gtk_calls evs_s = []
    ∧ quiet evs_a ∧ setenv_calls evs_a = []
    ∧ (ParentStartup ∉ evs_a) ∧ Gtk fl_view_new ∈ evs_a.
Proof.
  intros Hreg.
  set (p := fresh (dom (heap st))).
  destruct (startup_signal_total inner
              {| environ := environ st; heap := <[p:=rest]> (heap st);
                 self := {| dart_entrypoint_arguments := Some p |} |})
    as ([env' hp' slf'] & evs_s & Hstartup & Hheap & Hself & Hquiet_s & Hgtk_s).
  cbn [heap self] in Hheap, Hself. subst hp' slf'.
  destruct (my_application_activate_total (activate_emitted inner)
              {| environ := env'; heap := <[p:=rest]> (heap st);
                 self := {| dart_entrypoint_arguments := Some p |} |})
    as (evs_a & Hactivate & Hquiet_a & Hsetenv_a & Hparent_a & Hview_a).
  { unfold arguments_valid. cbn [heap self dart_entrypoint_arguments].
    rewrite lookup_insert_eq. by eexists. }
  exists env', evs_s, evs_a. split_and!; [done|done| |done..].
  rewrite my_application_local_command_line_unfold, Hreg. fold p.
  cbv beta iota zeta delta [mbind M_bind g_application_activate emit ret].
  rewrite Hstartup. cbv beta iota. rewrite Hactivate.
  cbv beta iota. by rewrite !app_nil_r.
Qed.

(** An empty vector has no cell after its terminator to copy from. *)
Lemma my_application_local_command_line_empty pf inner st :
  my_application_local_command_line pf inner [] st = None.
Proof. reflexivity. Qed.

(** Both paths at once: the result, the state but for the environment,
    and the first two events do not depend on how registration went. *)
Lemma my_application_local_command_line_run pf inner prog rest st :
  ∃ env' evs,
    my_application_local_command_line pf inner (prog :: rest) st
    = Some (match g_application_register pf with
            | Registered => (true, 0)
            | RegisterFailed _ => (true, 1)
            end,
            {| environ := env';
               heap := <[fresh (dom (heap st)):=rest]> (heap st);
               self := {| dart_entrypoint_arguments :=
                            Some (fresh (dom (heap st))) |} |},
            [Strdupv (fresh (dom (heap st))); ApplicationRegister] ++ evs)
    ∧ freed evs = [] ∧ allocated evs = []
    ∧ match g_application_register pf with
      | Registered =>
          ∃ evs_s evs_a,
            evs = evs_s ++ ApplicationActivate :: evs_a
            ∧ quiet evs_s ∧ quiet evs_a
      | RegisterFailed message =>
          env' = environ st
          ∧ evs = [GWarning ("Failed to register: " +:+ message);
                   AutoptrCleanup error]
      end.
Proof.
  destruct (g_application_register pf) as [|message] eqn:Hreg.
  - destruct (my_application_local_command_line_registered
                pf inner prog rest st Hreg)
      as (env' & evs_s & evs_a & _ & _ & Hrun & Hquiet_s & _ & Hquiet_a & _).
    exists env', (evs_s ++ ApplicationActivate :: evs_a).
    split; [done|].
    assert (quiet evs_s → quiet evs_a
            → freed (evs_s ++ ApplicationActivate :: evs_a) = []
              ∧ allocated (evs_s ++ ApplicationActivate :: evs_a) = [])
      as Hnone.
    { intros Hs Ha. unfold freed, allocated.
      rewrite !omap_app. simpl.
      fold (freed evs_s) (freed evs_a) (allocated evs_s) (allocated evs_a).
      by rewrite !quiet_freed, !quiet_allocated. }
    destruct (Hnone Hquiet_s Hquiet_a) as [-> ->].
    split_and!; [done..|]. by exists evs_s, evs_a.
  - rewrite (my_application_local_command_line_failed _ _ _ _ _ _ Hreg).
    by eexists _, _.
Qed.

(** C4.  In the command-line handler, a failed registration logs the
    warning, stores exit status 1 and does not call
    [g_application_activate]; a successful one calls it exactly once and
    stores exit status 0. *)
Theorem my_application_local_command_line_registration
    (pf : Platform) (inner : Emissions) (prog : string)
    (rest : list string) (st : State) :
  ∃ r status st' evs,
    my_application_local_command_line pf inner (prog :: rest) st
    = Some ((r, status), st', evs)
    ∧ match g_application_register pf with
      | RegisterFailed message =>
          GWarning ("Failed to register: " +:+ message) ∈ evs
          ∧ status = 1
          ∧ activations evs = 0%nat
      | Registered =>
          activations evs = 1%nat
          ∧ status = 0
          ∧ (∀ text, GWarning text ∉ evs)
      end.
Proof.
  destruct (my_application_local_command_line_run pf inner prog rest st)
    as (env' & evs & Hrun & _ & _ & Hcases).
  rewrite Hrun.
  destruct (g_application_register pf) as [|message];
    eexists _, _, _, _; (split; [reflexivity|]).
  - destruct Hcases as (evs_s & evs_a & -> & Hquiet_s & Hquiet_a).
    split_and!; [|done|].
    + unfold activations. cbn [app]. rewrite !filter_cons.
      rewrite decide_False, decide_False by done.
      rewrite filter_app, filter_cons, decide_True by done.
      rewrite length_app. cbn [length].
      fold (activations evs_s) (activations evs_a).
      by rewrite !quiet_activations.
    + intros text Hin. cbn [app] in Hin.
      repeat (apply elem_of_cons in Hin as [?|Hin]; [done|]).
      apply elem_of_app in Hin as [Hin|Hin];
        [exact (quiet_no_warning _ _ Hquiet_s Hin)|].
      apply elem_of_cons in Hin as [?|Hin]; [done|].
      exact (quiet_no_warning _ _ Hquiet_a Hin).
  - destruct Hcases as [_ ->].
    split_and!; [|done..].
    cbn [app]. rewrite !elem_of_cons. tauto.
Qed.

(** C5, as the code has it.  For every argument vector that holds at
    least the binary name, the handler stores a fresh copy of the vector
    minus its first element, exactly one element shorter; with no extra
    argument the stored vector is empty. *)
Theorem my_application_local_command_line_strips
    (pf : Platform) (inner : Emissions) (prog : string)
    (rest : list string) (st : State) :
  spec_strips_binary_name pf inner (prog :: rest) st
  ∧ ∃ r st' evs p,
      my_application_local_command_line pf inner (prog :: rest) st
      = Some (r, st', evs)
      ∧ dart_entrypoint_arguments (self st') = Some p
      ∧ heap st' !! p = Some rest
      ∧ heap st !! p = None
      ∧ (rest = [] → heap st' !! p = Some []).
Proof.
  assert (heap st !! fresh (dom (heap st)) = None) as Hfresh.
  { apply not_elem_of_dom, is_fresh. }
  destruct (my_application_local_command_line_run pf inner prog rest st)
    as (env' & evs & Hrun & _).
  split.
  - unfold spec_strips_binary_name. rewrite Hrun.
    eexists _, _, _, _, rest. split; [reflexivity|]. cbn [self heap].
    split_and!; [done| |done..]. apply lookup_insert_eq.
  - rewrite Hrun.
    eexists _, _, _, _. split; [reflexivity|]. cbn [self heap].
    split_and!; [done| |done|].
    + apply lookup_insert_eq.
    + intros ->. apply lookup_insert_eq.
Qed.

Lemma my_application_local_command_line_strips_witness :
  ∃ r st' evs p,
    my_application_local_command_line
      (x11_platform "i3") (first_run "i3") ["bizsync"] plain_state
    = Some (r, st', evs)
    ∧ dart_entrypoint_arguments (self st') = Some p
    ∧ heap st' !! p = Some [].
Proof.
  destruct (my_application_local_command_line_strips
              (x11_platform "i3") (first_run "i3") "bizsync" [] plain_state)
    as (_ & r & st' & evs & p & Hrun & Hp & _ & _ & Hempty).
  exists r, st', evs, p. split_and!; [done..|]. by apply Hempty.
Defined.

(** C5 as stated fails on the empty vector: there the pointer
    [*arguments + 1] is past the terminator, the copy has no defined
    result, and no vector can be one element shorter than an empty one. *)
Lemma empty_argv_not_stripped :
  ¬ spec_strips_binary_name
      (x11_platform "i3") (first_run "i3") [] plain_state.
Proof.
  intros (r & st' & evs & p & stored & Hrun & _).
  rewrite my_application_local_command_line_empty in Hrun. discriminate.
Qed.

(** C10.  The handler returns [TRUE] on the registration-failure path and
    on the success path alike; it has no result that is [FALSE]. *)
Theorem my_application_local_command_line_TRUE
    (pf : Platform) (inner : Emissions) (st : State) :
  (∀ prog rest, ∃ status st' evs,
     my_application_local_command_line pf inner (prog :: rest) st
     = Some ((true, status), st', evs)
     ∧ match g_application_register pf with
       | Registered => ApplicationActivate ∈ evs
       | RegisterFailed _ => ApplicationActivate ∉ evs
       end)
  ∧ (∀ arguments r status st' evs,
       my_application_local_command_line pf inner arguments st
       = Some ((r, status), st', evs) →
       r = true).
Proof.
  assert (∀ prog rest, ∃ status st' evs,
     my_application_local_command_line pf inner (prog :: rest) st
     = Some ((true, status), st', evs)
     ∧ match g_application_register pf with
       | Registered => ApplicationActivate ∈ evs
       | RegisterFailed _ => ApplicationActivate ∉ evs
       end) as Hpaths.
  { intros prog rest.
    destruct (my_application_local_command_line_run pf inner prog rest st)
      as (env' & evs & Hrun & _ & _ & Hcases).
    rewrite Hrun.
    destruct (g_application_register pf) as [|message];
      eexists _, _, _; (split; [reflexivity|]).
    - destruct Hcases as (evs_s & evs_a & -> & _).
      cbn [app]. rewrite !elem_of_cons, elem_of_app, elem_of_cons. tauto.
    - destruct Hcases as [_ ->]. cbn [app].
      rewrite !not_elem_of_cons. split_and!; [done..|].
      apply not_elem_of_nil. }
  split; [done|].
  intros [|prog rest] r status st' evs Hrun.
  - by rewrite my_application_local_command_line_empty in Hrun.
  - destruct (Hpaths prog rest) as (status' & st'' & evs' & Hrun' & _).
    congruence.
Qed.

Lemma my_application_local_command_line_TRUE_witness :
  ∃ r st' evs,
    my_application_local_command_line
      unregistered_platform (first_run "i3")
      ["bizsync"; "--verbose"] plain_state
    = Some ((r, 1), st', evs)
    ∧ r = true.
Proof.
  eexists _, _, _.
  split; [vm_compute; reflexivity|].
  eapply (proj2 (my_application_local_command_line_TRUE
                   unregistered_platform (first_run "i3") plain_state)
            ["bizsync"; "--verbose"] _ 1 _ _).
  vm_compute. reflexivity.
Defined.

(** ** The order of startup and view creation *)

(** C8.  The startup hook runs the configurator to completion and only
    then chains up to the parent class: the chain-up is its last event,
    every [setenv] call comes before it, and under software rendering the
    parent class starts in an environment that holds the twelve literals.
    In the run GLib makes of the handlers, where the first successful
    registration emits [startup] and the activation that follows creates
    the Flutter view, every [setenv] call and the chain-up come before
    [fl_view_new], and the view is created in the configured
    environment. *)
Theorem my_application_startup_order (pf : Platform) (st : State) :
  (∃ st' evs,
     configure_mesa_rendering pf st = Some (tt, st', evs)
     ∧ my_application_startup pf st = Some (tt, st', evs ++ [ParentStartup])
     ∧ (ParentStartup ∉ evs)
     ∧ (evs ++ [ParentStartup]) !! (length evs) = Some ParentStartup
     ∧ setenv_calls (evs ++ [ParentStartup]) = setenv_calls evs
     ∧ (∀ i name value overwrite,
          (evs ++ [ParentStartup]) !! i = Some (Setenv name value overwrite) →
          (i < length evs)%nat)
     ∧ (is_mesa_software_rendering st = Some (true, st, []) →
        ∀ name value,
          (name, value) ∈ mesa_workarounds →
          Setenv name value 1 ∈ evs ∧ environ st' !! name = Some value))
  ∧ ∀ pf_cl pf_act prog rest,
      g_application_register pf_cl = Registered →
      ∃ r st2 evs2,
        my_application_local_command_line pf_cl
          {| startup_emitted := Some pf; activate_emitted := pf_act |}
          (prog :: rest) st
        = Some (r, st2, evs2)
        ∧ ParentStartup ∈ evs2
        ∧ Gtk fl_view_new ∈ evs2
        ∧ (∀ i j name value overwrite,
             evs2 !! i = Some (Setenv name value overwrite) →
             evs2 !! j = Some (Gtk fl_view_new) →
             (i < j)%nat)
        ∧ (∀ i j,
             evs2 !! i = Some ParentStartup →
             evs2 !! j = Some (Gtk fl_view_new) →
             (i < j)%nat)
        ∧ (∃ evs_a,
             my_application_activate pf_act st2 = Some (tt, st2, evs_a)
             ∧ evs_a `suffix_of` evs2
             ∧ Gtk fl_view_new ∈ evs_a
             ∧ setenv_calls evs_a = [])
        ∧ (is_mesa_software_rendering st = Some (true, st, []) →
           ∀ name value,
             (name, value) ∈ mesa_workarounds →
             Setenv name value 1 ∈ evs2 ∧ environ st2 !! name = Some value).
Proof.
  assert (∀ st0 st' evs,
            configure_mesa_rendering pf st0 = Some (tt, st', evs) →
            is_mesa_software_rendering st0 = Some (true, st0, []) →
            ∀ name value,
              (name, value) ∈ mesa_workarounds →
              Setenv name value 1 ∈ evs ∧ environ st' !! name = Some value)
    as Hliterals.
  { intros st0 st' evs Hconf Hdet name value Hin.
    destruct (configure_mesa_rendering_cases _ _ _ _ Hconf)
      as [(Hno & _)|(_ & -> & ->)]; [congruence|].
    cbn [environ]. split.
    - apply elem_of_app. left.
      apply list_elem_of_fmap. by exists (name, value).
    - by apply configured_lookup. }
  split.
  - destruct (my_application_startup_run pf st)
      as (st' & evs & Hconf & Hrun & _ & _ & Hevs).
    exists st', evs. split_and!; [done|done|..].
    + intros Hin. rewrite Forall_forall in Hevs. by apply Hevs in Hin.
    + by rewrite lookup_app_r, Nat.sub_diag.
    + unfold setenv_calls. rewrite omap_app. simpl. by rewrite app_nil_r.
    + intros i name value overwrite Hi.
      destruct (decide (i < length evs)%nat) as [|Hge]; [done|].
      rewrite lookup_app_r in Hi by lia.
      destruct (i - length evs)%nat as [|n]; [done|].
      by rewrite lookup_cons, lookup_nil in Hi.
    + by apply Hliterals.
  - intros pf_cl pf_act prog rest Hreg.
    destruct (my_application_local_command_line_registered pf_cl
                {| startup_emitted := Some pf; activate_emitted := pf_act |}
                prog rest st Hreg)
      as (env' & evs_s & evs_a & Hstartup & Hactivate & Hrun
          & Hquiet_s & Hgtk_s & Hquiet_a & Hsetenv_a & Hparent_a & Hview_a).
    cbn [activate_emitted] in Hactivate.
    unfold startup_signal in Hstartup. cbn [startup_emitted] in Hstartup.
    destruct (my_application_startup_run pf
                {| environ := environ st;
                   heap := <[fresh (dom (heap st)):=rest]> (heap st);
                   self := {| dart_entrypoint_arguments :=
                                Some (fresh (dom (heap st))) |} |})
      as (st' & evs_c & Hconf & Hrun_s & _ & _ & Hevs_c).
    rewrite Hrun_s in Hstartup. injection Hstartup as -> <-.
    eexists _, _, _. split; [exact Hrun|].
    pose (front := [Strdupv (fresh (dom (heap st))); ApplicationRegister]
                   ++ evs_c ++ [ParentStartup]).
    pose (back := ApplicationActivate :: evs_a).
    assert (([Strdupv (fresh (dom (heap st))); ApplicationRegister]
             ++ (evs_c ++ [ParentStartup]) ++ ApplicationActivate :: evs_a)
            = front ++ back) as ->.
    { unfold front, back. by rewrite <- !app_assoc. }
    assert (Gtk fl_view_new ∉ front) as Hview_front.
    { unfold front. cbn [app]. rewrite !not_elem_of_cons.
      split_and!; [done..|]. by apply gtk_calls_nil. }
    split_and!.
    + apply elem_of_app. left. unfold front.
      apply elem_of_app. right. apply elem_of_app. right. by left.
    + apply elem_of_app. right. by right.
    + intros i j name value overwrite. apply front_before_back; [|done].
      apply not_elem_of_cons. split; [done|]. by apply setenv_calls_nil.
    + intros i j. apply front_before_back; [|done].
      by apply not_elem_of_cons.
    + exists evs_a. split_and!; [done| |done..].
      exists (front ++ [ApplicationActivate]).
      unfold back. by rewrite <- app_assoc.
    + intros Hdet name value Hin.
      destruct (Hliterals _ _ _ Hconf) with (name := name) (value := value)
        as [Hset Hvalue]; [|done|].
      * revert Hdet. by apply is_mesa_software_rendering_reads.
      * split; [|done]. apply elem_of_app. left. unfold front.
        apply elem_of_app. right. apply elem_of_app. by left.
Qed.

Lemma my_application_startup_order_witness :
  ∃ r st2 evs2,
    my_application_local_command_line (x11_platform "i3")
      {| startup_emitted := Some before_display;
         activate_emitted := x11_platform "i3" |}
      ["bizsync"] llvmpipe_state
    = Some (r, st2, evs2)
    ∧ environ st2 !! "vblank_mode" = Some "0"
    ∧ Gtk fl_view_new ∈ evs2.
Proof.
  assert (is_mesa_software_rendering llvmpipe_state
          = Some (true, llvmpipe_state, [])) as Hdet by (vm_compute; reflexivity).
  destruct (proj2 (my_application_startup_order before_display llvmpipe_state)
              (x11_platform "i3") (x11_platform "i3") "bizsync" [] eq_refl)
    as (r & st2 & evs2 & Hrun & _ & Hview & _ & _ & _ & Hliterals).
  exists r, st2, evs2. split_and!; [done| |done].
  apply (Hliterals Hdet). apply (bool_decide_unpack _). by vm_compute.
Defined.

(** ** Disposal *)

(** The handler keeps the stored pointer valid. *)
Lemma my_application_local_command_line_valid
    pf inner arguments st r st' evs :
  my_application_local_command_line pf inner arguments st
  = Some (r, st', evs) →
  arguments_valid st'.
Proof.
  destruct arguments as [|prog rest].
  - by rewrite my_application_local_command_line_empty.
  - destruct (my_application_local_command_line_run pf inner prog rest st)
      as (env' & evs' & -> & _).
    intros [= _ <- _]. unfold arguments_valid.
    cbn [self heap dart_entrypoint_arguments].
    rewrite lookup_insert_eq. by eexists.
Qed.

Lemma my_application_dispose_run st :
  arguments_valid st →
  my_application_dispose st
  = Some (tt,
          {| environ := environ st;
             heap := match dart_entrypoint_arguments (self st) with
                     | Some p => delete p (heap st)
                     | None => heap st
                     end;
             self := {| dart_entrypoint_arguments := None |} |},
          match dart_entrypoint_arguments (self st) with
          | Some p => [Strfreev p]
          | None => []
          end ++ [ParentDispose]).
Proof.
  destruct st as [env hp [[p|]]]; unfold arguments_valid; cbn [self heap].
  - intros [strings Hp].
    cbv beta iota zeta
      delta [my_application_dispose g_clear_pointer_dart_entrypoint_arguments
             mbind M_bind get_dart_entrypoint_arguments
             set_dart_entrypoint_arguments g_strfreev emit
             dart_entrypoint_arguments self heap environ].
    by rewrite Hp.
  - done.
Qed.

(** C7.  Disposal releases the stored argument vector, once, clears the
    pointer and then chains up to the parent class; run again, or run
    with the pointer already null, it releases nothing and only chains
    up. *)
Theorem my_application_dispose_once (st : State) :
  arguments_valid st →
  ∃ st' evs,
    my_application_dispose st = Some (tt, st', evs)
    ∧ evs = match dart_entrypoint_arguments (self st) with
            | Some p => [Strfreev p; ParentDispose]
            | None => [ParentDispose]
            end
    ∧ dart_entrypoint_arguments (self st') = None
    ∧ (∀ p, dart_entrypoint_arguments (self st) = Some p →
            heap st' !! p = None)
    ∧ (dart_entrypoint_arguments (self st) = None → heap st' = heap st)
    ∧ ∃ st'' evs',
        my_application_dispose st' = Some (tt, st'', evs')
        ∧ evs' = [ParentDispose]
        ∧ freed evs' = []
        ∧ heap st'' = heap st'
        ∧ freed (evs ++ evs')
          = match dart_entrypoint_arguments (self st) with
            | Some p => [p]
            | None => []
            end.
Proof.
  intros Hvalid.
  rewrite (my_application_dispose_run st Hvalid).
  eexists _, _. split; [reflexivity|]. cbn [self heap dart_entrypoint_arguments].
  split_and!.
  - by destruct (dart_entrypoint_arguments (self st)).
  - done.
  - intros p ->. apply lookup_delete_eq.
  - by intros ->.
  - rewrite my_application_dispose_run by exact I.
    eexists _, _. split; [reflexivity|].
    cbn [self heap dart_entrypoint_arguments].
    by destruct (dart_entrypoint_arguments (self st)).
Qed.

Lemma my_application_dispose_once_witness :
  arguments_valid running_state
  ∧ ∃ st' evs,
      my_application_dispose running_state = Some (tt, st', evs)
      ∧ evs = [Strfreev 7; ParentDispose]
      ∧ heap st' !! 7%nat = None.
Proof.
  assert (arguments_valid running_state) as Hvalid
    by (exists ["--verbose"; "data.db"]; reflexivity).
  split; [exact Hvalid|].
  destruct (my_application_dispose_once running_state Hvalid)
    as (st' & evs & Hrun & Hevs & _ & Hfreed & _).
  exists st', evs. split_and!; [done..|]. by apply Hfreed.
Defined.

(** A second pointer to the vector would dangle: releasing it again has
    no defined result, which is what clearing the field rules out. *)
Lemma g_strfreev_twice p st st' evs :
  g_strfreev p st = Some (tt, st', evs) → g_strfreev p st' = None.
Proof.
  unfold g_strfreev. destruct (heap st !! p); [|done].
  intros [= <- _]. cbn [heap]. by rewrite lookup_delete_eq.
Qed.

(** ** The life of an instance *)

(** In every reachable state the stored pointer is null or live. *)
Lemma reachable_arguments_valid st : reachable st → arguments_valid st.
Proof.
  induction 1 as [env hp|st pf sig st' evs _ IH Hrun]; [exact I|].
  destruct sig as [|arguments inner| | |];
    cbn [my_application_class_init] in Hrun.
  - by apply my_application_activate_no_setenv in Hrun as [-> _].
  - cbv [mbind M_bind ret] in Hrun.
    destruct (my_application_local_command_line pf inner arguments st)
      as [[[r st1] evs1]|] eqn:Hcl; [|done].
    injection Hrun as <- _.
    by eapply my_application_local_command_line_valid.
  - destruct (my_application_startup_state pf st)
      as (st1 & evs1 & Hrun1 & Hheap & Hself).
    rewrite Hrun1 in Hrun. injection Hrun as <- _.
    unfold arguments_valid in *. by rewrite Hheap, Hself.
  - by injection Hrun as <- _.
  - rewrite my_application_dispose_run in Hrun by done.
    by injection Hrun as <- _.
Qed.

(** From a reachable state every handler has a defined result, the
    command-line handler on an empty vector apart. *)
Lemma reachable_safe st pf sig :
  reachable st →
  (∀ inner, sig ≠ local_command_line [] inner) →
  is_Some (my_application_class_init pf sig st).
Proof.
  intros Hvalid%reachable_arguments_valid Hsig.
  destruct sig as [|[|prog rest] inner| | |]; cbn [my_application_class_init].
  - destruct (my_application_activate_title pf st Hvalid) as (evs & -> & _).
    by eexists.
  - by destruct (Hsig inner).
  - cbv [mbind M_bind ret].
    destruct (my_application_local_command_line_run pf inner prog rest st)
      as (env' & evs' & -> & _).
    by eexists.
  - destruct (my_application_startup_state pf st) as (st1 & evs1 & -> & _).
    by eexists.
  - by eexists.
  - rewrite my_application_dispose_run by done. by eexists.
Qed.

(** ** Sample runs *)

Example detector_flag_set :
  is_mesa_software_rendering
    {| environ := {[ "LIBGL_ALWAYS_SOFTWARE" := "1" ]};
       heap := ∅; self := zeroed_instance |}
  = Some (true,
          {| environ := {[ "LIBGL_ALWAYS_SOFTWARE" := "1" ]};
             heap := ∅; self := zeroed_instance |}, []).
Proof. vm_compute. reflexivity. Qed.

Example detector_flag_other_value :
  is_mesa_software_rendering
    {| environ := {[ "LIBGL_ALWAYS_SOFTWARE" := "true" ]};
       heap := ∅; self := zeroed_instance |}
  = Some (false,
          {| environ := {[ "LIBGL_ALWAYS_SOFTWARE" := "true" ]};
             heap := ∅; self := zeroed_instance |}, []).
Proof. vm_compute. reflexivity. Qed.

Example detector_swrast_inside :
  is_mesa_software_rendering
    {| environ := {[ "LIBGL_ALWAYS_SOFTWARE" := "0";
                     "GL_RENDERER" := "Mesa swrast_dri" ]};
       heap := ∅; self := zeroed_instance |}
  = Some (true,
          {| environ := {[ "LIBGL_ALWAYS_SOFTWARE" := "0";
                           "GL_RENDERER" := "Mesa swrast_dri" ]};
             heap := ∅; self := zeroed_instance |}, []).
Proof. vm_compute. reflexivity. Qed.

Example detector_upper_case :
  is_mesa_software_rendering
    {| environ := {[ "GL_RENDERER" := "LLVMPIPE (LLVM 15.0.7)" ]};
       heap := ∅; self := zeroed_instance |}
  = Some (false,
          {| environ := {[ "GL_RENDERER" := "LLVMPIPE (LLVM 15.0.7)" ]};
             heap := ∅; self := zeroed_instance |}, []).
Proof. vm_compute. reflexivity. Qed.

Example strstr_first_occurrence :
  CString.strstr "a softpipe and a softpipe" "softpipe"
  = Some "softpipe and a softpipe".
Proof. reflexivity. Qed.

Example command_line_then_dispose_twice :
  (_ ← my_application_local_command_line
         (x11_platform "i3") (first_run "i3") ["bizsync"; "--verbose"];
   my_application_dispose;;
   my_application_dispose) plain_state
  = Some (tt, plain_state,
          [Strdupv 0; ApplicationRegister; ParentStartup; ApplicationActivate]
          ++ (Gtk <$> [gtk_application_window_new;
                       gtk_window_set_resizable true;
                       gtk_window_set_decorated true;
                       gtk_window_set_title "bizsync";
                       gtk_window_set_default_size 1280 720;
                       gtk_widget_show window;
                       fl_dart_project_new;
                       fl_dart_project_set_dart_entrypoint_arguments
                         (Some ["--verbose"]);
                       fl_view_new;
                       gtk_widget_show view;
                       gtk_container_add window view;
                       fl_register_plugins;
                       gtk_widget_grab_focus view])
          ++ [AutoptrCleanup project;
              Strfreev 0; ParentDispose; ParentDispose]).
Proof. vm_compute. reflexivity. Qed.

Example command_line_unregistered :
  my_application_local_command_line
    unregistered_platform (first_run "i3") ["bizsync"] plain_state
  = Some ((true, 1),
          {| environ := environ plain_state;
             heap := {[ 0%nat := [] ]};
             self := {| dart_entrypoint_arguments := Some 0%nat |} |},
          [Strdupv 0; ApplicationRegister;
           GWarning "Failed to register: already running";
           AutoptrCleanup error]).
Proof. vm_compute. reflexivity. Qed.

Example activate_under_i3 :
  my_application_activate (x11_platform "i3") running_state
  = Some (tt, running_state,
          (Gtk <$> [gtk_application_window_new;
                    gtk_window_set_resizable true;
                    gtk_window_set_decorated true;
                    gtk_window_set_title "bizsync";
                    gtk_window_set_default_size 1280 720;
                    gtk_widget_show window;
                    fl_dart_project_new;
                    fl_dart_project_set_dart_entrypoint_arguments
                      (Some ["--verbose"; "data.db"]);
                    fl_view_new;
                    gtk_widget_show view;
                    gtk_container_add window view;
                    fl_register_plugins;
                    gtk_widget_grab_focus view])
          ++ [AutoptrCleanup project]).
Proof. vm_compute. reflexivity. Qed.

(** * Further properties of the runner *)

(** ** The detector over the life of the process *)

Lemma assign_all_fixed kvs (env : gmap string string) :
  (∀ name value, (name, value) ∈ kvs → env !! name = Some value) →
  assign_all kvs env = env.
Proof.
  induction kvs as [|[k v] kvs IH]; intros Hall; [done|].
  change (assign_all ((k, v) :: kvs) env) with (assign_all kvs (<[k:=v]> env)).
  rewrite insert_id by (apply Hall; left).
  apply IH. intros name value Hin. apply Hall. by right.
Qed.

(** Outside the twelve variables and [GDK_BACKEND] the configurator
    leaves the environment as it was. *)
Lemma configure_mesa_rendering_frame pf st st' evs name :
  configure_mesa_rendering pf st = Some (tt, st', evs) →
  name ∉ mesa_workarounds.*1 → name ≠ "GDK_BACKEND" →
  environ st' !! name = environ st !! name.
Proof.
  intros [(_ & -> & _)|(_ & -> & _)]%configure_mesa_rendering_cases Hw Hb;
    [done|].
  cbn [environ].
  destruct (forces_x11_backend pf (environ st)); cbv beta iota delta [id];
    rewrite ?lookup_insert_ne by done; by apply assign_all_lookup_notin.
Qed.


Lemma my_application_startup_frame pf st st' evs name :
  my_application_startup pf st = Some (tt, st', evs) →
  name ∉ mesa_workarounds.*1 → name ≠ "GDK_BACKEND" →
  environ st' !! name = environ st !! name.
Proof.
  intros Hrun Hw Hb.
  destruct (my_application_startup_run pf st)
    as (st1 & evs1 & Hconf & Hrun1 & _).
  rewrite Hrun1 in Hrun. injection Hrun as <- _.
  by eapply configure_mesa_rendering_frame.
Qed.

(** The handler, inverted: a result means the vector held the binary
    name; the state differs from the one before by the stored copy and by
    what the startup handler, if registration ran it, wrote. *)
Lemma my_application_local_command_line_inv
    pf inner arguments st r st' evs :
  my_application_local_command_line pf inner arguments st
  = Some (r, st', evs) →
  ∃ prog rest,
    arguments = prog :: rest
    ∧ st' = {| environ := environ st';
               heap := <[fresh (dom (heap st)):=rest]> (heap st);
               self := {| dart_entrypoint_arguments :=
                            Some (fresh (dom (heap st))) |} |}
    ∧ heap st !! fresh (dom (heap st)) = None
    ∧ (∀ name,
         name ∉ mesa_workarounds.*1 → name ≠ "GDK_BACKEND" →
         environ st' !! name = environ st !! name)
    ∧ (g_application_register pf ≠ Registered
       ∨ startup_emitted inner = None →
       environ st' = environ st ∧ setenv_calls evs = []).
Proof.
  destruct arguments as [|prog rest].
  { by rewrite my_application_local_command_line_empty. }
  intros Hrun. exists prog, rest. split; [done|].
  assert (heap st !! fresh (dom (heap st)) = None) as Hfresh
    by apply not_elem_of_dom, is_fresh.
  destruct (g_application_register pf) as [|message] eqn:Hreg.
  - destruct (my_application_local_command_line_registered
                pf inner prog rest st Hreg)
      as (env' & evs_s & evs_a & Hstartup & _ & Hrun'
          & _ & _ & _ & Hsetenv_a & _).
    rewrite Hrun' in Hrun. injection Hrun as _ <- <-. cbn [environ].
    split_and!; [done|done|..].
    + intros name Hw Hb. unfold startup_signal in Hstartup.
      destruct (startup_emitted inner) as [pf_s|].
      * by apply (my_application_startup_frame _ _ _ _ name) in Hstartup.
      * by injection Hstartup as <- _.
    + intros [?|Hnone]; [done|].
      unfold startup_signal in Hstartup. rewrite Hnone in Hstartup.
      injection Hstartup as <- <-. split; [done|].
      unfold setenv_calls in *. cbn [app]. simpl. exact Hsetenv_a.
  - rewrite (my_application_local_command_line_failed _ _ _ _ _ _ Hreg)
      in Hrun.
    injection Hrun as _ <- <-. by cbn [environ].
Qed.




(** ** The configurator, run again *)

Lemma forces_x11_backend_after pf (env : gmap string string) :
  forces_x11_backend pf
    ((if forces_x11_backend pf env then <["GDK_BACKEND":="x11"]> else id)
       (assign_all mesa_workarounds env)) = false.
Proof.
  destruct (forces_x11_backend pf env) eqn:Hforce; cbv beta iota delta [id].
  - unfold forces_x11_backend. by rewrite lookup_insert_eq.
  - by rewrite forces_x11_backend_assign.
Qed.

(** X2.  The configurator is idempotent on a platform: run on the state
    it produced, it produces that state again, and this second run never
    writes [GDK_BACKEND]. *)
Theorem configure_mesa_rendering_idempotent
    (pf : Platform) (st st1 : State) (evs1 : list Event) :
  configure_mesa_rendering pf st = Some (tt, st1, evs1) →
  ∃ evs2,
    configure_mesa_rendering pf st1 = Some (tt, st1, evs2)
    ∧ ∀ value overwrite, Setenv "GDK_BACKEND" value overwrite ∉ evs2.
Proof.
  intros Hrun.
  destruct (configure_mesa_rendering_cases _ _ _ _ Hrun)
    as [(Hdet & -> & ->)|(Hdet & Hst1 & _)].
  - exists []. split; [done|]. intros value overwrite. apply not_elem_of_nil.
  - assert (is_mesa_software_rendering st1 = Some (true, st1, [])) as Hdet1.
    { revert Hdet. apply is_mesa_software_rendering_reads;
        (eapply configure_mesa_rendering_frame; [done| |done]);
        apply (bool_decide_unpack _); by vm_compute. }
    rewrite (configure_mesa_rendering_triggered pf st1 Hdet1).
    assert (forces_x11_backend pf (environ st1) = false) as ->.
    { subst st1. cbn [environ]. apply forces_x11_backend_after. }
    cbv beta iota delta [id]. eexists. split.
    + f_equal. f_equal. f_equal.
      rewrite assign_all_fixed; [by destruct st1|].
      intros name value Hin. subst st1. cbn [environ].
      by apply configured_lookup.
    + intros value overwrite Hin.
      apply elem_of_app in Hin as [Hin|Hin].
      * apply list_elem_of_fmap in Hin as ([k v] & [= <- _ _] & Hin).
        apply GDK_BACKEND_not_workaround.
        apply list_elem_of_fmap. by exists ("GDK_BACKEND", v).
      * by apply list_elem_of_fmap in Hin as (text & [=] & _).
Qed.

Lemma configure_mesa_rendering_idempotent_witness :
  ∃ st1 evs1 evs2,
    configure_mesa_rendering (x11_platform "i3") llvmpipe_state
    = Some (tt, st1, evs1)
    ∧ configure_mesa_rendering (x11_platform "i3") st1 = Some (tt, st1, evs2).
Proof.
  assert (is_mesa_software_rendering llvmpipe_state
          = Some (true, llvmpipe_state, [])) as Hdet by (vm_compute; reflexivity).
  pose proof (configure_mesa_rendering_triggered
                (x11_platform "i3") llvmpipe_state Hdet) as Hrun.
  destruct (configure_mesa_rendering_idempotent _ _ _ _ Hrun)
    as (evs2 & Hagain & _).
  eexists _, _, evs2. split; [exact Hrun | exact Hagain].
Defined.

(** ** The backend selector *)

(** X3.  The configurator respects a backend it has no ground to
    override: if there is no default display or it is not an X11 display,
    or GDK lacks its X11 back end, or [GDK_BACKEND] is already set to
    something other than "wayland", then [GDK_BACKEND] keeps its value
    (or stays unset) and no [setenv] call names it. *)
Theorem configure_mesa_rendering_keeps_backend
    (pf : Platform) (st st' : State) (evs : list Event) :
  configure_mesa_rendering pf st = Some (tt, st', evs) →
  gdk_display_get_default pf ≠ Some X11Display
  ∨ GDK_WINDOWING_X11 (build pf) = false
  ∨ (∃ b, environ st !! "GDK_BACKEND" = Some b ∧ b ≠ "wayland") →
  environ st' !! "GDK_BACKEND" = environ st !! "GDK_BACKEND"
  ∧ ∀ value overwrite, Setenv "GDK_BACKEND" value overwrite ∉ evs.
Proof.
  intros Hrun Hkeep.
  destruct (configure_mesa_rendering_cases _ _ _ _ Hrun)
    as [(_ & -> & ->)|(_ & -> & ->)].
  { split; [done|]. intros value overwrite. apply not_elem_of_nil. }
  assert (forces_x11_backend pf (environ st) = false) as ->.
  { apply not_true_is_false. intros Hforce.
    destruct Hkeep as [Hdisplay|[Hbuild|(b & Hb & Hne)]].
    - by apply forces_x11_backend_spec in Hforce as [_ ?].
    - unfold forces_x11_backend in Hforce. rewrite Hbuild in Hforce.
      by rewrite andb_false_r in Hforce.
    - apply forces_x11_backend_spec in Hforce as [[Hnone|Hwayland] _];
        congruence. }
  cbn [environ]. cbv beta iota delta [id]. split.
  - apply assign_all_lookup_notin, GDK_BACKEND_not_workaround.
  - intros value overwrite Hin.
    apply elem_of_app in Hin as [Hin|Hin].
    + apply list_elem_of_fmap in Hin as ([k v] & [= <- _ _] & Hin).
      apply GDK_BACKEND_not_workaround.
      apply list_elem_of_fmap. by exists ("GDK_BACKEND", v).
    + by apply list_elem_of_fmap in Hin as (text & [=] & _).
Qed.

Lemma configure_mesa_rendering_keeps_backend_witness :
  ∃ st' evs,
    configure_mesa_rendering unregistered_platform llvmpipe_state
    = Some (tt, st', evs)
    ∧ environ st' !! "GDK_BACKEND" = None.
Proof.
  assert (is_mesa_software_rendering llvmpipe_state
          = Some (true, llvmpipe_state, [])) as Hdet by (vm_compute; reflexivity).
  pose proof (configure_mesa_rendering_triggered
                unregistered_platform llvmpipe_state Hdet) as Hrun.
  eexists _, _. split; [exact Hrun|].
  assert (environ llvmpipe_state !! "GDK_BACKEND" = None) as <-
    by (vm_compute; reflexivity).
  refine (proj1 (configure_mesa_rendering_keeps_backend _ _ _ _ Hrun _)).
  left. discriminate.
Defined.

(** ** What the configurator prints *)

(** X4.  The configurator prints its six-line notice exactly when the
    detector answers yes, and nothing otherwise; the lines come after the
    last [setenv] call, and each ends in a line feed. *)
Theorem configure_mesa_rendering_prints
    (pf : Platform) (st st' : State) (evs : list Event) :
  configure_mesa_rendering pf st = Some (tt, st', evs) →
  ∃ b writes,
    is_mesa_software_rendering st = Some (b, st, [])
    ∧ printed evs = (if b then mesa_notice else [])
    ∧ evs = writes ++ (GPrint <$> printed evs)
    ∧ printed writes = []
    ∧ length mesa_notice = 6%nat
    ∧ ∀ text, text ∈ printed evs → ∃ line, text = line +:+ CString.LF.
Proof.
  intros Hrun.
  destruct (configure_mesa_rendering_cases _ _ _ _ Hrun)
    as [(Hdet & -> & ->)|(Hdet & -> & ->)].
  - exists false, []. split_and!; try done.
    intros text Hin. by apply elem_of_nil in Hin.
  - exists true.
    exists (((λ kv, Setenv kv.1 kv.2 1) <$> mesa_workarounds)
            ++ (if forces_x11_backend pf (environ st)
                then [Setenv "GDK_BACKEND" "x11" 1] else [])).
    assert (∀ force : bool,
              printed (((λ kv, Setenv kv.1 kv.2 1) <$> mesa_workarounds)
                       ++ (if force then [Setenv "GDK_BACKEND" "x11" 1]
                           else [])
                       ++ (GPrint <$> mesa_notice)) = mesa_notice) as Hprinted
      by (by intros []).
    rewrite Hprinted. split_and!; try done.
    + by destruct (forces_x11_backend pf (environ st)).
    + intros text Hin. unfold mesa_notice in Hin.
      repeat (apply elem_of_cons in Hin as [->|Hin]; [by eexists|]).
      by apply elem_of_nil in Hin.
Qed.

Lemma configure_mesa_rendering_prints_witness :
  ∃ st' evs,
    configure_mesa_rendering (x11_platform "i3") llvmpipe_state
    = Some (tt, st', evs)
    ∧ length (printed evs) = 6%nat.
Proof.
  assert (is_mesa_software_rendering llvmpipe_state
          = Some (true, llvmpipe_state, [])) as Hdet by (vm_compute; reflexivity).
  pose proof (configure_mesa_rendering_triggered
                (x11_platform "i3") llvmpipe_state Hdet) as Hrun.
  eexists _, _. split; [exact Hrun|].
  destruct (configure_mesa_rendering_prints _ _ _ _ Hrun)
    as (b & writes & Hdet' & Hprinted & _).
  assert (b = true) as -> by congruence.
  by rewrite Hprinted.
Defined.

(** ** More on the activation handler *)

(** X5.  An activation changes nothing in the process: the environment,
    the live vectors and the instance are as before.  Every event it
    causes is a call into GTK or Flutter, but for the last, the release of
    the Dart project that [g_autoptr] runs on return; it makes no [setenv]
    call, prints nothing, and allocates or frees no vector. *)
Theorem my_application_activate_only_toolkit
    (pf : Platform) (st st' : State) (evs : list Event) :
  my_application_activate pf st = Some (tt, st', evs) →
  st' = st
  ∧ evs = (Gtk <$> gtk_calls evs) ++ [AutoptrCleanup project]
  ∧ setenv_calls evs = []
  ∧ printed evs = []
  ∧ allocated evs = []
  ∧ freed evs = [].
Proof.
  intros Hrun.
  destruct (my_application_activate_inputs _ _ _ _ Hrun)
    as (argv & software & Hargv & Hdet).
  rewrite (my_application_activate_run pf st argv software) in Hrun by done.
  injection Hrun as <- <-. split; [done|].
  by activate_cases pf software.
Qed.

Lemma my_application_activate_only_toolkit_witness :
  ∃ evs,
    my_application_activate wayland_platform running_state
    = Some (tt, running_state, evs)
    ∧ setenv_calls evs = []
    ∧ last evs = Some (AutoptrCleanup project).
Proof.
  assert (arguments_valid running_state) as Hvalid
    by (exists ["--verbose"; "data.db"]; reflexivity).
  destruct (my_application_activate_title wayland_platform running_state Hvalid)
    as (evs & Hrun & _).
  exists evs. split; [exact Hrun|].
  destruct (my_application_activate_only_toolkit _ _ _ _ Hrun)
    as (_ & Hshape & Hsetenv & _).
  split; [exact Hsetenv|]. rewrite Hshape. apply last_snoc.
Defined.

(** X6.  The plain title is used in one situation only: GDK has its X11
    back end, the default display is an X11 display, the window's screen
    is an X11 screen, and its window-manager name is not "GNOME Shell" (a
    null name included).  In every other situation the header bar is
    used. *)
Theorem activate_use_header_bar_false_iff (pf : Platform) :
  activate_use_header_bar pf = false
  ↔ GDK_WINDOWING_X11 (build pf) = true
    ∧ gdk_display_get_default pf = Some X11Display
    ∧ ∃ wm_name,
        gtk_window_get_screen pf = X11Screen wm_name
        ∧ wm_name ≠ Some "GNOME Shell".
Proof.
  unfold activate_use_header_bar.
  destruct (GDK_WINDOWING_X11 (build pf)) eqn:Hx11;
    destruct (GDK_WINDOWING_WAYLAND (build pf)) eqn:Hwayland;
    destruct (gdk_display_get_default pf) as [[]|] eqn:Hdisplay;
    destruct (gtk_window_get_screen pf) as [wm_name|] eqn:Hscreen;
    cbv beta iota zeta delta [GDK_IS_X11_DISPLAY GDK_IS_WAYLAND_DISPLAY
                              GDK_IS_X11_SCREEN andb
                              gdk_x11_screen_get_window_manager_name];
    try (split; [discriminate | intros (? & ? & ? & ? & ?); congruence]).
  all: case_bool_decide as Hwm; rewrite CStringFacts.g_strcmp0_Eq in Hwm.
  all: try (split; [intros _ | done]; split_and!; [done..|]; by exists wm_name).
  all: split; [done|]; intros (_ & _ & wm & [= <-] & Hne); done.
Qed.

(** X7.  The Wayland branch of the activation is taken exactly when GDK
    has its Wayland back end and the default display is a Wayland display;
    the type hint and the 800 by 600 size request on the window are made
    then and only then, while the 1280 by 720 default size is set in every
    activation. *)
Theorem my_application_activate_wayland
    (pf : Platform) (st st' : State) (evs : list Event) :
  my_application_activate pf st = Some (tt, st', evs) →
  (activate_is_wayland pf = true
   ↔ GDK_WINDOWING_WAYLAND (build pf) = true
     ∧ gdk_display_get_default pf = Some WaylandDisplay)
  ∧ (gtk_widget_set_size_request window 800 600 ∈ gtk_calls evs
     ↔ activate_is_wayland pf = true)
  ∧ (gtk_window_set_type_hint_NORMAL ∈ gtk_calls evs
     ↔ activate_is_wayland pf = true)
  ∧ gtk_window_set_default_size 1280 720 ∈ gtk_calls evs.
Proof.
  intros Hrun. split.
  { unfold activate_is_wayland.
    destruct (GDK_WINDOWING_WAYLAND (build pf)),
      (gdk_display_get_default pf) as [[]|];
      cbv beta iota zeta delta [GDK_IS_WAYLAND_DISPLAY andb];
      (split; [try done | by intros [? ?]]). }
  destruct (my_application_activate_inputs _ _ _ _ Hrun)
    as (argv & software & Hargv & Hdet).
  rewrite (my_application_activate_run pf st argv software) in Hrun by done.
  injection Hrun as <- <-.
  activate_cases pf software; split_and!;
    try (apply (bool_decide_unpack _); by vm_compute);
    (split;
     [ first [ by intros _
             | intros Hin; exfalso; revert Hin;
               apply (bool_decide_unpack _); by vm_compute ]
     | first [ done
             | intros _; apply (bool_decide_unpack _); by vm_compute ] ]).
Qed.

Lemma my_application_activate_wayland_witness :
  ∃ evs,
    my_application_activate wayland_platform running_state
    = Some (tt, running_state, evs)
    ∧ gtk_widget_set_size_request window 800 600 ∈ gtk_calls evs.
Proof.
  assert (arguments_valid running_state) as Hvalid
    by (exists ["--verbose"; "data.db"]; reflexivity).
  destruct (my_application_activate_title wayland_platform running_state Hvalid)
    as (evs & Hrun & _).
  exists evs. split; [exact Hrun|].
  destruct (my_application_activate_wayland _ _ _ _ Hrun)
    as (_ & Hsize & _).
  apply Hsize. reflexivity.
Defined.

(** X8.  Under software rendering the activation leaves the view not
    app-paintable, also on Wayland where it had just made it so, and gives
    the system visual to the window and then the view when there is one;
    without software rendering it sets no visual, and the view is
    app-paintable exactly on Wayland.  The window is made app-paintable
    on Wayland only. *)
Theorem my_application_activate_software
    (pf : Platform) (st st' : State) (evs : list Event) (software : bool) :
  my_application_activate pf st = Some (tt, st', evs) →
  is_mesa_software_rendering st = Some (software, st, []) →
  final_app_paintable view (gtk_calls evs)
  = (if software then Some false
     else if activate_is_wayland pf then Some true else None)
  ∧ visual_set (gtk_calls evs)
    = (if software && gdk_screen_get_system_visual pf
       then [window; view] else [])
  ∧ final_app_paintable window (gtk_calls evs)
    = (if activate_is_wayland pf then Some true else None).
Proof.
  intros Hrun Hdet.
  destruct (my_application_activate_inputs _ _ _ _ Hrun)
    as (argv & software' & Hargv & Hdet').
  assert (software' = software) as -> by congruence.
  rewrite (my_application_activate_run pf st argv software) in Hrun by done.
  injection Hrun as <- <-.
  by activate_cases pf software.
Qed.

Lemma my_application_activate_software_witness :
  ∃ st' evs,
    my_application_activate wayland_platform
      {| environ := environ llvmpipe_state;
         heap := heap running_state; self := self running_state |}
    = Some (tt, st', evs)
    ∧ final_app_paintable view (gtk_calls evs) = Some false
    ∧ visual_set (gtk_calls evs) = [window; view].
Proof.
  eassert (my_application_activate wayland_platform
             {| environ := environ llvmpipe_state;
                heap := heap running_state; self := self running_state |}
           = Some (tt, _, _)) as Hrun.
  { apply (my_application_activate_run _ _ (Some ["--verbose"; "data.db"]) true);
      vm_compute; reflexivity. }
  eexists _, _. split; [exact Hrun|].
  eapply (my_application_activate_software _ _ _ _ true) in Hrun as (Hview & Hvisual & _);
    [|vm_compute; reflexivity].
  by rewrite Hview, Hvisual.
Defined.

(** X9.  The vector the command-line handler stored is the one an
    activation hands to the Dart project: after the handler ran on
    [prog :: rest], whatever registration answered, an activation passes
    exactly [rest], once.  An activation on an instance whose pointer is
    null passes the null vector. *)
Theorem entrypoint_arguments_forwarded
    (pf pf' : Platform) (inner : Emissions) (prog : string)
    (rest : list string) (st st1 : State) (r : bool * Z)
    (evs1 : list Event) :
  my_application_local_command_line pf inner (prog :: rest) st
  = Some (r, st1, evs1) →
  (∃ evs2,
     my_application_activate pf' st1 = Some (tt, st1, evs2)
     ∧ entrypoint_arguments_passed (gtk_calls evs2) = [Some rest])
  ∧ (dart_entrypoint_arguments (self st) = None →
     ∃ evs0,
       my_application_activate pf' st = Some (tt, st, evs0)
       ∧ entrypoint_arguments_passed (gtk_calls evs0) = [None]).
Proof.
  intros Hcl. split.
  - destruct (my_application_local_command_line_inv _ _ _ _ _ _ _ Hcl)
      as (? & ? & [= <- <-] & Hst1 & _).
    destruct (is_mesa_software_rendering_pure st1) as [software Hdet].
    eexists. split.
    + apply (my_application_activate_run _ _ (Some rest) software); [|done].
      rewrite Hst1 at 1 2. unfold strv_deref.
      cbn [self heap dart_entrypoint_arguments].
      by rewrite lookup_insert_eq, <- Hst1.
    + by activate_cases pf' software.
  - intros Hnull.
    destruct (is_mesa_software_rendering_pure st) as [software Hdet].
    eexists. split.
    + apply (my_application_activate_run _ _ None software); [|done].
      unfold strv_deref. by rewrite Hnull.
    + by activate_cases pf' software.
Qed.

Lemma entrypoint_arguments_forwarded_witness :
  ∃ r st1 evs1 evs2,
    my_application_local_command_line
      unregistered_platform (first_run "i3")
      ["bizsync"; "--verbose"] plain_state
    = Some (r, st1, evs1)
    ∧ my_application_activate wayland_platform st1 = Some (tt, st1, evs2)
    ∧ entrypoint_arguments_passed (gtk_calls evs2) = [Some ["--verbose"]].
Proof.
  pose proof (my_application_local_command_line_failed
                unregistered_platform (first_run "i3")
                "bizsync" ["--verbose"] plain_state _ eq_refl)
    as Hcl.
  destruct (entrypoint_arguments_forwarded
              unregistered_platform wayland_platform _ _ _ _ _ _ _ Hcl)
    as [(evs2 & Hrun & Hpassed) _].
  eexists _, _, _, evs2. split; [exact Hcl|]. by split.
Defined.

(** X10.  Every activation, whatever the platform and the state, creates
    one window, one Dart project and one Flutter view, registers the
    plugins once, begins by creating the window, and ends by showing the
    view, adding it to the window, registering the plugins and giving the
    view the focus, in that order. *)
Theorem my_application_activate_shape
    (pf : Platform) (st st' : State) (evs : list Event) :
  my_application_activate pf st = Some (tt, st', evs) →
  head (gtk_calls evs) = Some gtk_application_window_new
  ∧ [gtk_widget_show view; gtk_container_add window view;
     fl_register_plugins; gtk_widget_grab_focus view]
    `suffix_of` gtk_calls evs
  ∧ length (filter (λ c, c = gtk_application_window_new) (gtk_calls evs)) = 1%nat
  ∧ length (filter (λ c, c = fl_dart_project_new) (gtk_calls evs)) = 1%nat
  ∧ length (filter (λ c, c = fl_view_new) (gtk_calls evs)) = 1%nat
  ∧ length (filter (λ c, c = fl_register_plugins) (gtk_calls evs)) = 1%nat.
Proof.
  intros Hrun.
  destruct (my_application_activate_inputs _ _ _ _ Hrun)
    as (argv & software & Hargv & Hdet).
  rewrite (my_application_activate_run pf st argv software) in Hrun by done.
  injection Hrun as <- <-.
  activate_cases pf software;
    (split_and!;
     [ reflexivity
     | apply (bool_decide_unpack _); by vm_compute
     | by vm_compute .. ]).
Qed.

Lemma my_application_activate_shape_witness :
  ∃ evs,
    my_application_activate (x11_platform "i3") plain_state
    = Some (tt, plain_state, evs)
    ∧ head (gtk_calls evs) = Some gtk_application_window_new.
Proof.
  destruct (my_application_activate_title
              (x11_platform "i3") plain_state I) as (evs & Hrun & _).
  exists evs. split; [exact Hrun|].
  exact (proj1 (my_application_activate_shape _ _ _ _ Hrun)).
Defined.

(** ** More on the command-line handler and disposal *)

(** What the handler's own trace shows, on either path: one allocation,
    first, then the registration, and no release. *)
Lemma my_application_local_command_line_trace
    pf inner prog rest st r st' evs :
  my_application_local_command_line pf inner (prog :: rest) st
  = Some (r, st', evs) →
  freed evs = []
  ∧ allocated evs = [fresh (dom (heap st))]
  ∧ evs !! 0%nat = Some (Strdupv (fresh (dom (heap st))))
  ∧ evs !! 1%nat = Some ApplicationRegister
  ∧ (r.2 = 0 ∨ r.2 = 1).
Proof.
  destruct (my_application_local_command_line_run pf inner prog rest st)
    as (env' & evs' & -> & Hfreed & Hallocated & _).
  intros [= <- _ <-].
  assert (∀ p, freed (Strdupv p :: ApplicationRegister :: evs') = freed evs')
    as -> by done.
  assert (∀ p, allocated (Strdupv p :: ApplicationRegister :: evs')
               = p :: allocated evs') as -> by done.
  rewrite Hfreed, Hallocated.
  split_and!; [done..|].
  destruct (g_application_register pf); [by left | by right].
Qed.



(** X12.  The handler does not release the vector it replaces.  Run a
    second time, it stores a second vector at another address and the
    first stays live; a disposal then frees the second only, so the first
    vector is still live afterwards with no pointer left to it. *)
Theorem my_application_local_command_line_twice
    (pf pf' : Platform) (inner inner' : Emissions)
    (prog prog' : string) (rest rest' : list string)
    (st st1 st2 : State) (r1 r2 : bool * Z) (evs1 evs2 : list Event)
    (p1 : nat) :
  my_application_local_command_line pf inner (prog :: rest) st
  = Some (r1, st1, evs1) →
  dart_entrypoint_arguments (self st1) = Some p1 →
  my_application_local_command_line pf' inner' (prog' :: rest') st1
  = Some (r2, st2, evs2) →
  ∃ p2,
    dart_entrypoint_arguments (self st2) = Some p2
    ∧ p2 ≠ p1
    ∧ heap st2 !! p1 = Some rest
    ∧ heap st2 !! p2 = Some rest'
    ∧ freed (evs1 ++ evs2) = []
    ∧ ∃ st3 evs3,
        my_application_dispose st2 = Some (tt, st3, evs3)
        ∧ freed evs3 = [p2]
        ∧ dart_entrypoint_arguments (self st3) = None
        ∧ heap st3 !! p1 = Some rest.
Proof.
  intros Hrun1 Hp1 Hrun2.
  destruct (my_application_local_command_line_inv _ _ _ _ _ _ _ Hrun1)
    as (? & ? & [= <- <-] & Hst1 & Hfresh1 & _).
  destruct (my_application_local_command_line_inv _ _ _ _ _ _ _ Hrun2)
    as (? & ? & [= <- <-] & Hst2 & Hfresh2 & _).
  destruct (my_application_local_command_line_trace _ _ _ _ _ _ _ _ Hrun1)
    as (Hfreed1 & _).
  destruct (my_application_local_command_line_trace _ _ _ _ _ _ _ _ Hrun2)
    as (Hfreed2 & _).
  assert (heap st1 !! p1 = Some rest) as Hlive1.
  { rewrite Hst1 in Hp1 |- *. cbn [self heap dart_entrypoint_arguments] in *.
    injection Hp1 as <-. apply lookup_insert_eq. }
  set (p2 := fresh (dom (heap st1))) in *.
  assert (p2 ≠ p1) as Hne by congruence.
  exists p2. rewrite Hst2. cbn [self heap dart_entrypoint_arguments].
  split_and!; [done|done| | | |].
  - by rewrite lookup_insert_ne.
  - apply lookup_insert_eq.
  - unfold freed in *. by rewrite omap_app, Hfreed1, Hfreed2.
  - rewrite my_application_dispose_run.
    + eexists _, _. split; [reflexivity|].
      cbn [self heap dart_entrypoint_arguments].
      split_and!; [done..|].
      rewrite lookup_delete_ne by done. by rewrite lookup_insert_ne.
    + unfold arguments_valid. cbn [self heap dart_entrypoint_arguments].
      rewrite lookup_insert_eq. by eexists.
Qed.

Lemma my_application_local_command_line_twice_witness :
  ∃ r1 st1 evs1 r2 st2 evs2 st3 evs3,
    my_application_local_command_line
      unregistered_platform (first_run "i3")
      ["bizsync"; "first"] plain_state
    = Some (r1, st1, evs1)
    ∧ my_application_local_command_line
        unregistered_platform (first_run "i3")
        ["bizsync"; "second"] st1
      = Some (r2, st2, evs2)
    ∧ my_application_dispose st2 = Some (tt, st3, evs3)
    ∧ heap st3 !! 0%nat = Some ["first"].
Proof.
  pose proof (my_application_local_command_line_failed
                unregistered_platform (first_run "i3")
                "bizsync" ["first"] plain_state _ eq_refl) as Hrun1.
  set (p1 := fresh (dom (heap plain_state))) in *.
  assert (p1 = 0%nat) as Hp1 by (vm_compute; reflexivity).
  match type of Hrun1 with _ = Some (_, ?s, _) => set (st1 := s) in * end.
  pose proof (my_application_local_command_line_failed
                unregistered_platform (first_run "i3")
                "bizsync" ["second"] st1 _ eq_refl) as Hrun2.
  destruct (my_application_local_command_line_twice
              _ _ _ _ _ _ _ _ _ _ _ _ _ _ _ p1 Hrun1 eq_refl Hrun2)
    as (p2 & _ & _ & _ & _ & _ & st3 & evs3 & Hdispose & _ & _ & Hleak).
  eexists _, st1, _, _, _, _, st3, evs3.
  split_and!; [exact Hrun1 | exact Hrun2 | exact Hdispose |].
  by rewrite <- Hp1.
Defined.



(** ** Memory safety over the life of an instance *)

(** X14.  Starting from a new instance and running handlers in any order,
    any number of times, on any platforms, the stored pointer is always
    null or points to a live vector, and every handler has a defined
    result (no read of a freed vector, no second free), the command-line
    handler on an empty vector apart; the state it leads to is reachable
    again. *)
Theorem reachable_memory_safe (st : State) :
  reachable st →
  arguments_valid st
  ∧ ∀ pf sig,
      (∀ inner, sig ≠ local_command_line [] inner) →
      ∃ st' evs,
        my_application_class_init pf sig st = Some (tt, st', evs)
        ∧ reachable st'
        ∧ arguments_valid st'.
Proof.
  intros Hreach. split; [by apply reachable_arguments_valid|].
  intros pf sig Hsig.
  destruct (reachable_safe st pf sig Hreach Hsig) as [[[[] st'] evs] Hrun].
  exists st', evs. split; [done|].
  assert (reachable st') as Hreach' by (by eapply reachable_signal).
  split; [done | by apply reachable_arguments_valid].
Qed.

Lemma reachable_memory_safe_witness :
  reachable plain_state
  ∧ ∃ st1 evs1 st2 evs2,
      my_application_class_init (x11_platform "i3")
        (local_command_line ["bizsync"; "--verbose"] (first_run "i3"))
        plain_state
      = Some (tt, st1, evs1)
      ∧ my_application_class_init (x11_platform "i3") dispose st1
        = Some (tt, st2, evs2)
      ∧ reachable st2.
Proof.
  assert (reachable plain_state) as Hreach by apply reachable_new.
  split; [exact Hreach|].
  destruct (proj2 (reachable_memory_safe plain_state Hreach)
              (x11_platform "i3")
              (local_command_line ["bizsync"; "--verbose"] (first_run "i3")))
    as (st1 & evs1 & Hrun1 & Hreach1 & _); [discriminate|].
  destruct (proj2 (reachable_memory_safe st1 Hreach1)
              (x11_platform "i3") dispose)
    as (st2 & evs2 & Hrun2 & Hreach2 & _); [discriminate|].
  by exists st1, evs1, st2, evs2.
Defined.

(** ** What disposal leaves alone *)

(** X15.  A disposal has a defined result only on a pointer that is null
    or live; it then leaves the environment and every vector other than
    the stored one as they were, allocates nothing, writes no variable,
    and its last event is the chain-up to the parent class. *)
Theorem my_application_dispose_frame (st st' : State) (evs : list Event) :
  my_application_dispose st = Some (tt, st', evs) →
  arguments_valid st
  ∧ environ st' = environ st
  ∧ (∀ q, dart_entrypoint_arguments (self st) ≠ Some q →
          heap st' !! q = heap st !! q)
  ∧ allocated evs = []
  ∧ setenv_calls evs = []
  ∧ last evs = Some ParentDispose.
Proof.
  intros Hrun.
  assert (arguments_valid st) as Hvalid.
  { revert Hrun. destruct st as [env hp [[p|]]]; [|done].
    unfold arguments_valid.
    cbv beta iota zeta
      delta [my_application_dispose g_clear_pointer_dart_entrypoint_arguments
             mbind M_bind get_dart_entrypoint_arguments ret
             set_dart_entrypoint_arguments g_strfreev emit
             dart_entrypoint_arguments self heap environ].
    destruct (hp !! p); [by eexists | done]. }
  split; [done|].
  rewrite my_application_dispose_run in Hrun by done.
  injection Hrun as <- <-. cbn [environ heap].
  split_and!; [done| |by destruct (dart_entrypoint_arguments (self st))..].
  intros q Hq.
  destruct (dart_entrypoint_arguments (self st)) as [p|]; [|done].
  apply lookup_delete_ne. congruence.
Qed.

Lemma my_application_dispose_frame_witness :
  ∃ st' evs,
    my_application_dispose running_state = Some (tt, st', evs)
    ∧ environ st' = environ running_state
    ∧ last evs = Some ParentDispose.
Proof.
  assert (arguments_valid running_state) as Hvalid
    by (exists ["--verbose"; "data.db"]; reflexivity).
  pose proof (my_application_dispose_run running_state Hvalid) as Hrun.
  eexists _, _. split; [exact Hrun|].
  destruct (my_application_dispose_frame _ _ _ Hrun)
    as (_ & Henv & _ & _ & _ & Hlast).
  by split.
Defined.
